(** * The bootstrap pipeline of the ts-node command line ([src/bin.ts])

    A shallow embedding of [bin.ts]: the phases [phase2], [phase3], [phase4],
    the entry-point disambiguation [getEntryPointInfo], the continuation record
    built for forked processes, and [evalAndExitOnTsError].

    JavaScript's [&&], [||] and [!] are modelled on values (they return one of
    their operands, not a boolean); [process.exit], [throw], [console.log] and
    the calls into the collaborators that live in other files ([./repl],
    [./index], [./configuration], [./child/...], node's [path] and [module])
    are modelled by a small state-and-outcome monad whose state keeps a trace
    of those calls in program order.  [parseArgv] is a call into the [arg]
    package; the model starts from the record it returns. *)

From Stdlib Require Import String Ascii List ZArith Bool Arith Lia DecimalString
  DecimalNat.
Import ListNotations.
Local Open Scope string_scope.
Local Open Scope list_scope.

(** ** JavaScript values and operators used by the dispatcher *)

(** The values that flow through the boolean expressions of [bin.ts]:
    [undefined], booleans, and numbers such as [restArgs.length]. *)
Inductive JsVal : Type :=
| JsUndefined
| JsBool (b : bool)
| JsNum (n : nat).

(** [ToBoolean] of ECMAScript: [undefined] and [0] are falsy. *)
Definition ToBoolean (v : JsVal) : bool :=
  match v with
  | JsUndefined => false
  | JsBool b => b
  | JsNum n => negb (Nat.eqb n 0)
  end.

(** [a && b] evaluates to [a] when [a] is falsy and to [b] otherwise. *)
Definition js_and (a b : JsVal) : JsVal := if ToBoolean a then b else a.

(** [a || b] evaluates to [a] when [a] is truthy and to [b] otherwise. *)
Definition js_or (a b : JsVal) : JsVal := if ToBoolean a then a else b.

(** [!a] is always a boolean. *)
Definition js_not (a : JsVal) : bool := negb (ToBoolean a).

(** A field of type [boolean | undefined]. *)
Definition optbool (o : option bool) : JsVal :=
  match o with
  | Some b => JsBool b
  | None => JsUndefined
  end.

(** Truthiness of a [boolean | undefined] field. *)
Definition truthy (o : option bool) : bool := ToBoolean (optbool o).

(** Truthiness of a [string | undefined]: the empty string is falsy. *)
Definition truthy_str (o : option string) : bool :=
  match o with
  | Some s => negb (String.eqb s "")
  | None => false
  end.

(** [x != null]. *)
Definition not_nullish {A : Type} (o : option A) : bool :=
  match o with
  | Some _ => true
  | None => false
  end.

(** [a ?? b]. *)
Definition nullish_or {A : Type} (o : option A) (d : A) : A :=
  match o with
  | Some a => a
  | None => d
  end.

(** [x === true] on a [boolean | undefined]. *)
Definition is_true_strict (o : option bool) : bool :=
  match o with
  | Some true => true
  | _ => false
  end.

(** Template-literal rendering of a non-negative integer. *)
Definition number_to_string (n : nat) : string :=
  NilZero.string_of_uint (Nat.to_uint n).

(** ** Thrown values and the ways a call can complete *)

(** What a [catch] clause can receive.  [TSError] is the class exported by
    [./index]; [error instanceof TSError] holds exactly for its instances. *)
Inductive Thrown : Type :=
| TSError (diagnosticText : string)
| TypeError (message : string)
| OtherThrown (description : string).

Definition instanceof_TSError (e : Thrown) : bool :=
  match e with
  | TSError _ => true
  | _ => false
  end.

(** A call returns, throws, or ends the process through [process.exit]. *)
Inductive Outcome (A : Type) : Type :=
| Returned (a : A)
| Threw (e : Thrown)
| Exited (status : Z).

Arguments Returned {A} a.
Arguments Threw {A} e.
Arguments Exited {A} status.

(** ** The host process *)

(** The parts of node's [process] object that [bin.ts] reads or writes.
    [process.stdin.isTTY] and [process.stdout.isTTY] are [true] on a terminal
    and [undefined] otherwise. *)
Module process.
Record t : Type := {
  cwd : string;
  stdin_isTTY : option bool;
  stdout_isTTY : option bool;
  argv : list (option string);
  execArgv : list string;
  version : string;
  versions_node : string
}.

Definition with_argv (a : list (option string)) (p : t) : t :=
  {| cwd := cwd p; stdin_isTTY := stdin_isTTY p;
     stdout_isTTY := stdout_isTTY p; argv := a; execArgv := execArgv p;
     version := version p; versions_node := versions_node p |}.

Definition with_execArgv (a : list string) (p : t) : t :=
  {| cwd := cwd p; stdin_isTTY := stdin_isTTY p;
     stdout_isTTY := stdout_isTTY p; argv := argv p; execArgv := a;
     version := version p; versions_node := versions_node p |}.
End process.

(** ** The record returned by [parseArgv] *)

(** The value of [--compilerOptions] after [parse]; its content is not
    inspected by [bin.ts]. *)
Definition JsonObject : Type := string.

Module ParsedArgv.
Record t : Type := {
  argv : list (option string);
  restArgs : list string;
  cwdArg : option string;
  help : bool;
  scriptMode : option bool;
  cwdMode : option bool;
  version : nat;
  showConfig : option bool;
  argsRequire : list string;
  code : option string;
  print : bool;
  interactive : bool;
  files : option bool;
  compiler : option string;
  compilerOptions : option JsonObject;
  project : option string;
  ignoreDiagnostics : option (list string);
  ignore : option (list string);
  transpileOnly : option bool;
  typeCheck : option bool;
  transpiler : option string;
  swc : option bool;
  compilerHost : option bool;
  pretty : option bool;
  skipProject : option bool;
  skipIgnore : option bool;
  preferTsExts : option bool;
  logError : option bool;
  emit : option bool;
  scope : option bool;
  scopeDir : option string;
  noExperimentalReplAwait : option bool;
  experimentalSpecifierResolution : option string;
  esm : option bool
}.
End ParsedArgv.

(** ** The options object handed to [findAndReadConfig] *)

Module RawOptions.
Record t : Type := {
  cwd : string;
  emit : option bool;
  files : option bool;
  pretty : option bool;
  transpileOnly : option bool;
  experimentalReplAwait : option bool;
  typeCheck : option bool;
  transpiler : option string;
  swc : option bool;
  compilerHost : option bool;
  ignore : option (list string);
  logError : option bool;
  projectSearchDir : option string;
  project : option string;
  skipProject : option bool;
  skipIgnore : option bool;
  compiler : option string;
  ignoreDiagnostics : option (list string);
  compilerOptions : option JsonObject;
  require : list string;
  scope : option bool;
  scopeDir : option string;
  preferTsExts : option bool;
  esm : option bool;
  experimentalSpecifierResolution : option string
}.
End RawOptions.

(** ** Entry-point information *)

Record EntryPointInfo : Type := {
  executeEval : bool;
  executeEntrypoint : bool;
  executeRepl : JsVal;
  executeStdin : bool;
  entryPointPath : option string
}.

(** ** Virtual files *)

(** The third argument of [setupContext]: ['eval' | 'stdin']. *)
Inductive FilenameAndDirname : Type := for_eval | for_stdin.

(** The file-system overlay a REPL service exposes.  Each [createRepl] call
    composes the overlay of its own virtual file with the one it is given, so
    an overlay is the list of virtual paths it answers for, newest first. *)
Definition EvalAwarePartialHost : Type := list string.

(** [new EvalState(path)]. *)
Record EvalState : Type := { path : string }.

(** A [Module] instance created by [new Module(id)], with the two properties
    [phase4] assigns. *)
Record ModuleRec : Type := {
  module_id : string;
  module_filename : string;
  module_paths : list string
}.

(** ** A monad for [throw], [process.exit] and mutable process state *)

Definition M (W A : Type) : Type := W -> Outcome A * W.

Definition ret {W A : Type} (a : A) : M W A := fun w => (Returned a, w).

Definition bind {W A B : Type} (m : M W A) (f : A -> M W B) : M W B :=
  fun w =>
    match m w with
    | (Returned a, w') => f a w'
    | (Threw e, w') => (Threw e, w')
    | (Exited status, w') => (Exited status, w')
    end.

(** [throw e]. *)
Definition throw {W A : Type} (e : Thrown) : M W A := fun w => (Threw e, w).

(** [process.exit(status)]: nothing after it runs. *)
Definition process_exit {W A : Type} (status : Z) : M W A :=
  fun w => (Exited status, w).

(** [try { m } catch (error) { handler(error) }]. *)
Definition try_catch {W A : Type} (m : M W A) (handler : Thrown -> M W A)
  : M W A :=
  fun w =>
    match m w with
    | (Threw e, w') => handler e w'
    | r => r
    end.

(** [try { m } finally { cleanup }]: the cleanup runs whether [m] returned or
    threw (not when the process exited), and the completion of [m] is kept
    unless the cleanup itself ends abruptly. *)
Definition try_finally {W A : Type} (m : M W A) (cleanup : M W unit)
  : M W A :=
  fun w =>
    match m w with
    | (Exited status, w') => (Exited status, w')
    | (completion, w') =>
        match cleanup w' with
        | (Returned _, w'') => (completion, w'')
        | (Threw e, w'') => (Threw e, w'')
        | (Exited status, w'') => (Exited status, w'')
        end
    end.

(** [if (b) { m }]. *)
Definition when {W : Type} (b : bool) (m : M W unit) : M W unit :=
  if b then m else ret tt.

Declare Scope js_scope.
Delimit Scope js_scope with js.
Notation "x <- m ;; k" := (bind m (fun x => k))
  (at level 61, m at next level, right associativity) : js_scope.
Notation "m ;; k" := (bind m (fun _ => k))
  (at level 61, right associativity) : js_scope.
Local Open Scope js_scope.

(** How many of the given flags are set. *)
Definition count_true (l : list bool) : nat := length (filter (fun b => b) l).

(** The usage text printed by [--help]. *)
Definition usage_text : string := "
Usage: ts-node [options] [ -e script | script.ts ] [arguments]

Options:

  -e, --eval [code]               Evaluate code
  -p, --print                     Print result of `--eval`
  -r, --require [path]            Require a node module before execution
  -i, --interactive               Opens the REPL even if stdin does not appear to be a terminal

  --esm                           Bootstrap with the ESM loader, enabling full ESM support
  --swc                           Use the faster swc transpiler

  -h, --help                      Print CLI usage
  -v, --version                   Print module version information.  -vvv to print additional information
  --showConfig                    Print resolved configuration and exit

  -T, --transpileOnly             Use TypeScript's faster `transpileModule` or a third-party transpiler
  -H, --compilerHost              Use TypeScript's compiler host API
  -I, --ignore [pattern]          Override the path patterns to skip compilation
  -P, --project [path]            Path to TypeScript JSON project file
  -C, --compiler [name]           Specify a custom TypeScript compiler
  --transpiler [name]             Specify a third-party, non-typechecking transpiler
  -D, --ignoreDiagnostics [code]  Ignore TypeScript warnings by diagnostic code
  -O, --compilerOptions [opts]    JSON object to merge with compiler options

  --cwd                           Behave as if invoked within this working directory.
  --files                         Load `files`, `include` and `exclude` from `tsconfig.json` on startup
  --pretty                        Use pretty diagnostic formatter (usually enabled by default)
  --cwdMode                       Use current directory instead of <script.ts> for config resolution
  --skipProject                   Skip reading `tsconfig.json`
  --skipIgnore                    Skip `--ignore` checks
  --emit                          Emit output files into `.ts-node` directory
  --scope                         Scope compiler to files within `scopeDir`.  Anything outside this directory is ignored.
  --scopeDir                      Directory for `--scope`
  --preferTsExts                  Prefer importing TypeScript files over JavaScript files
  --logError                      Logs TypeScript errors to stderr instead of throwing exceptions
  --noExperimentalReplAwait       Disable top-level await in REPL.  Equivalent to node's --no-experimental-repl-await
  --experimentalSpecifierResolution [node|explicit]
                                  Equivalent to node's --experimental-specifier-resolution
".

(** ** The model of [bin.ts] *)

Set Implicit Arguments.
Set Contextual Implicit.

Section Model.

(** Values owned by the collaborators: the merged configuration returned by
    [findAndReadConfig], the compiler service built from it, and the
    non-string results of evaluated code. *)
Variables (PreloadedConfig Service Obj : Type).

(** The value of [replService.evalCode(code)], split by
    [typeof result === 'string']. *)
Inductive EvalResult : Type :=
| ResultString (s : string)
| ResultOther (o : Obj).

(** The object returned by [createRepl]: the options [phase4] passes, and
    the compiler service bound later by [setService]. *)
Record ReplService : Type := {
  repl_state : EvalState;
  evalAwarePartialHost : EvalAwarePartialHost;
  ignoreDiagnosticsThatAreAnnoyingInInteractiveRepl : option bool;
  repl_service : option Service
}.

(** [interface VirtualFileState { state; repl; module? }]. *)
Record VirtualFileState : Type := {
  state : EvalState;
  repl : ReplService;
  module : option ModuleRec
}.

(** [ReturnType<typeof phase2>]. *)
Record Phase2Result : Type := { resolutionCwd : string }.

(** [ReturnType<typeof phase3>]. *)
Record Phase3Result : Type := {
  preloadedConfig : PreloadedConfig;
  enableEsmLoader : bool
}.

(** [interface BootstrapState]; its [phase3Result] slot is named
    [state_phase3Result] here, and [bootstrap] neither reads nor writes it. *)
Record BootstrapState : Type := {
  parseArgvResult : ParsedArgv.t;
  phase2Result : option Phase2Result;
  state_phase3Result : option Phase3Result
}.

(** The objects that [completeBootstrap], [phase3], [phase4] and
    [createBootstrapStateForChildProcess] receive.  One record covers the
    three TypeScript views of such an object: a field that a view does not
    declare, or declares optional, is [None] when the object lacks it.
    - [BootstrapStateForForkedProcesses]: [restArgs] and [phase3Result];
    - [BootstrapStateInitialProcess]: [restArgs], [initialArgv],
      [initialResolutionCwd] and an optional [phase3Result];
    - [BootstrapStateForChild]: the intersection type [phase4] declares. *)
Record BootstrapStateForChild : Type := {
  restArgs : list string;
  phase3Result : option Phase3Result;
  initialArgv : option ParsedArgv.t;
  initialResolutionCwd : option string
}.

(** The own property names of such an object, in the order above. *)
Definition ownKeys (s : BootstrapStateForChild) : list string :=
  ["restArgs"]
    ++ (if not_nullish (phase3Result s) then ["phase3Result"] else [])
    ++ (if not_nullish (initialArgv s) then ["initialArgv"] else [])
    ++ (if not_nullish (initialResolutionCwd s)
        then ["initialResolutionCwd"] else []).

(** The variables that the two [process.stdin] listeners of [phase4] close
    over. *)
Record StdinListeners : Type := {
  buffer : string;
  stdinStuff : option VirtualFileState;
  listener_payload : BootstrapStateForChild
}.

(** Calls that leave [bin.ts], in the order they are made. *)
Inductive Event : Type :=
| console_log (text : string)
| console_error_thrown (error : Thrown)
| console_error (text : string)
| call_findAndReadConfig (options : RawOptions.t)
| call_require_resolve (requirer request : string) (paths : list string)
| callInChildWithEsm (st : BootstrapStateForChild) (targetCwd : string)
| call_createRepl (r : ReplService)
| call_createFromPreloadedConfig (config : PreloadedConfig)
    (host : option EvalAwarePartialHost)
| call_register (service : Service)
| call_lateBindHooks (service : Service)
| call_setService (r : ReplService) (service : Service)
| call_setupContext (m : ModuleRec) (name : FilenameAndDirname)
| call_evalCode (r : ReplService) (code : string)
| call_addBuiltinLibsToObject
| call_repl_start (r : ReplService)
| call_runMain
| call_runMainHack (entry : option string)
| stdin_on (eventName : string).

(** The mutable state of one process. *)
Record World : Type := {
  proc : process.t;
  require_extensions : list string;
  guaranteedNonexistentDirectorySuffix : nat;
  stdin_listeners : option StdinListeners;
  trace : list Event
}.

(** The collaborators of [bin.ts] whose code lives in other files. *)
Record Host : Type := {
  (* node: path, util, module *)
  path_resolve : string -> list string -> string;
  path_join : string -> string -> string;
  path_dirname : string -> string;
  path_parse : string -> string * string;
  inspect : EvalResult -> option bool -> string;
  nodeModulePaths : string -> list string;
  require_resolve_paths : string -> string -> option (list string);
  require_resolve :
    list string -> string -> string -> list string -> Outcome string;
  dirname_ : string;
  (* ./util *)
  versionGteLt : string -> string -> bool;
  (* ./index *)
  VERSION : string;
  createFromPreloadedConfig :
    PreloadedConfig -> option EvalAwarePartialHost -> Outcome Service;
  ts_version : Service -> string;
  compilerPath : Service -> option string;
  convertToTSConfig_is_function : Service -> bool;
  showConfig_json : Service -> string -> string;
  (* ./configuration *)
  findAndReadConfig : RawOptions.t -> Outcome PreloadedConfig;
  options_esm : PreloadedConfig -> option bool;
  (* ./repl *)
  EVAL_FILENAME : string;
  STDIN_FILENAME : string;
  REPL_FILENAME : string;
  EVAL_NAME : string;
  STDIN_NAME : string;
  evalCode : ReplService -> string -> Outcome EvalResult;
  (* ./child/child-exec-args *)
  getChildProcessArguments :
    bool -> BootstrapStateForChild -> string * list string
}.

Variable H : Host.

Definition with_proc (p : process.t) (w : World) : World :=
  {| proc := p; require_extensions := require_extensions w;
     guaranteedNonexistentDirectorySuffix :=
       guaranteedNonexistentDirectorySuffix w;
     stdin_listeners := stdin_listeners w; trace := trace w |}.

Definition with_require_extensions (l : list string) (w : World) : World :=
  {| proc := proc w; require_extensions := l;
     guaranteedNonexistentDirectorySuffix :=
       guaranteedNonexistentDirectorySuffix w;
     stdin_listeners := stdin_listeners w; trace := trace w |}.

Definition with_suffix (n : nat) (w : World) : World :=
  {| proc := proc w; require_extensions := require_extensions w;
     guaranteedNonexistentDirectorySuffix := n;
     stdin_listeners := stdin_listeners w; trace := trace w |}.

Definition with_stdin_listeners (l : option StdinListeners) (w : World)
  : World :=
  {| proc := proc w; require_extensions := require_extensions w;
     guaranteedNonexistentDirectorySuffix :=
       guaranteedNonexistentDirectorySuffix w;
     stdin_listeners := l; trace := trace w |}.

Definition with_trace (t : list Event) (w : World) : World :=
  {| proc := proc w; require_extensions := require_extensions w;
     guaranteedNonexistentDirectorySuffix :=
       guaranteedNonexistentDirectorySuffix w;
     stdin_listeners := stdin_listeners w; trace := t |}.

Definition JS (A : Type) : Type := M World A.

(** Reading and updating the process state. *)
Definition gets {A : Type} (f : World -> A) : JS A :=
  fun w => (Returned (f w), w).

Definition modify (f : World -> World) : JS unit :=
  fun w => (Returned tt, f w).

(** A call made for its effect: recorded, and it returns. *)
Definition emit (e : Event) : JS unit :=
  modify (fun w => with_trace (trace w ++ [e]) w).

(** A call whose completion the collaborator decides: recorded, then it
    completes the way the collaborator says. *)
Definition call {A : Type} (e : Event) (completion : Outcome A) : JS A :=
  fun w => (completion, with_trace (trace w ++ [e]) w).

(** A completion computed without touching the process state. *)
Definition lift {A : Type} (completion : Outcome A) : JS A :=
  fun w => (completion, w).

(** *** [getEntryPointInfo] (lines 477-509) *)

(** [getEntryPointInfo(resolutionCwd, { code, interactive, restArgs })].
    The argument object is destructured on entry, so its three fields are
    taken as three arguments; [process.stdin.isTTY] is read from [p].
    [restArgs[0]] is only read when [executeEntrypoint] holds, and then
    [restArgs] is not empty. *)
Definition getEntryPointInfo (p : process.t) (resolutionCwd : string)
    (code : option string) (interactive : option bool)
    (restArgs : list string) : EntryPointInfo :=
  let executeEval :=
    not_nullish code
    && js_not (js_and (optbool interactive) (JsNum (length restArgs))) in
  let executeEntrypoint :=
    negb executeEval && Nat.ltb 0 (length restArgs) in
  let executeRepl :=
    js_and (JsBool (negb executeEntrypoint))
           (js_or (optbool interactive)
                  (js_and (optbool (process.stdin_isTTY p))
                          (JsBool (negb executeEval)))) in
  let executeStdin :=
    negb executeEval && js_not executeRepl && negb executeEntrypoint in
  let entryPointPath :=
    if executeEntrypoint
    then option_map
           (fun script =>
              path_resolve H (process.cwd p) [resolutionCwd; script])
           (nth_error restArgs 0)
    else None in
  {| executeEval := executeEval;
     executeEntrypoint := executeEntrypoint;
     executeRepl := executeRepl;
     executeStdin := executeStdin;
     entryPointPath := entryPointPath |}.

(** *** [phase2] (lines 314-379) *)

Definition phase2 (payload : BootstrapState) : JS Phase2Result :=
  let help := ParsedArgv.help (parseArgvResult payload) in
  let version := ParsedArgv.version (parseArgvResult payload) in
  let cwdArg := ParsedArgv.cwdArg (parseArgvResult payload) in
  when help
    (emit (console_log usage_text) ;;
     process_exit 0) ;;
  when (Nat.eqb version 1)
    (emit (console_log ("v" ++ VERSION H)) ;;
     process_exit 0) ;;
  p <- gets proc ;;
  let resolutionCwd :=
    match cwdArg with
    | Some dir => path_resolve H (process.cwd p) [dir]
    | None => process.cwd p
    end in
  ret {| resolutionCwd := resolutionCwd |}.

(** *** [requireResolveNonCached] (lines 802-825) *)

Definition guaranteedNonexistentDirectoryPrefix (p : process.t) : string :=
  path_resolve H (process.cwd p) [dirname_ H; "doesnotexist"].

(** [createRequire(filename)] is represented by [filename]. *)
Definition requireResolveNonCached (absoluteModuleSpecifier : string)
  : JS string :=
  let (dir, base) := path_parse H absoluteModuleSpecifier in
  let relativeModuleSpecifier := ("./" ++ base)%string in
  let req := path_join H dir "imaginaryUncacheableRequireResolveScript" in
  p <- gets proc ;;
  suffix <- gets guaranteedNonexistentDirectorySuffix ;;
  modify (with_suffix (S suffix)) ;;
  extensions <- gets require_extensions ;;
  let paths :=
    (guaranteedNonexistentDirectoryPrefix p ++ number_to_string suffix)%string
      :: nullish_or (require_resolve_paths H req relativeModuleSpecifier)
                    [] in
  call (call_require_resolve req relativeModuleSpecifier paths)
       (require_resolve H extensions req relativeModuleSpecifier paths).

(** *** [getProjectSearchDir] (lines 757-800) *)

(** [hasOwnProperty(require.extensions, ext)]. *)
Definition hasOwnProperty (extensions : list string) (ext : string) : bool :=
  existsb (String.eqb ext) extensions.

(** The loop of lines 784-789. *)
Fixpoint installExtensions (exts extsTemporarilyInstalled : list string)
  : JS (list string) :=
  match exts with
  | [] => ret extsTemporarilyInstalled
  | ext :: rest =>
      extensions <- gets require_extensions ;;
      if hasOwnProperty extensions ext
      then installExtensions rest extsTemporarilyInstalled
      else
        modify (fun w =>
                  with_require_extensions (require_extensions w ++ [ext]) w) ;;
        installExtensions rest (extsTemporarilyInstalled ++ [ext])
  end.

(** The loop of lines 793-795. *)
Fixpoint removeExtensions (extsTemporarilyInstalled : list string)
  : JS unit :=
  match extsTemporarilyInstalled with
  | [] => ret tt
  | ext :: rest =>
      modify (fun w =>
                with_require_extensions
                  (filter (fun e => negb (String.eqb e ext))
                          (require_extensions w)) w) ;;
      removeExtensions rest
  end.

Definition getProjectSearchDir (cwd : option string)
    (scriptMode cwdMode : option bool) (scriptPath : option string)
  : JS (option string) :=
  if truthy scriptMode && truthy cwdMode
  then throw (TypeError "--cwd-mode cannot be combined with --script-mode")
  else if truthy scriptMode && negb (truthy_str scriptPath)
  then throw (TypeError
    "--script-mode must be used with a script name, e.g. `ts-node --script-mode <script.ts>`")
  else
    let doScriptMode :=
      if is_true_strict scriptMode then true
      else if is_true_strict cwdMode then false
      else truthy_str scriptPath in
    if doScriptMode
    then
      extsTemporarilyInstalled <-
        installExtensions [".js"; ".jsx"; ".ts"; ".tsx"] [] ;;
      try_finally
        (match scriptPath with
         | Some script =>
             resolved <- requireResolveNonCached script ;;
             ret (Some (path_dirname H resolved))
         | None =>
             (* [scriptPath!]: not reached, [doScriptMode] needs a path *)
             throw (TypeError "The 'path' argument must be of type string")
         end)
        (removeExtensions extsTemporarilyInstalled)
    else ret cwd.

(** *** [phase3] (lines 381-460) *)

(** [payload.initialArgv] and [payload.initialResolutionCwd] are required by
    the declared parameter type; destructuring an object that lacks them
    fails with a [TypeError]. *)
Definition phase3 (payload : BootstrapStateForChild) : JS Phase3Result :=
  match initialArgv payload, initialResolutionCwd payload with
  | Some a, Some resolutionCwd =>
      p <- gets proc ;;
      let entryPointPath :=
        entryPointPath
          (getEntryPointInfo p resolutionCwd (ParsedArgv.code a)
             (Some (ParsedArgv.interactive a)) (ParsedArgv.restArgs a)) in
      projectSearchDir <-
        getProjectSearchDir (Some resolutionCwd) (ParsedArgv.scriptMode a)
          (ParsedArgv.cwdMode a) entryPointPath ;;
      let options :=
        {| RawOptions.cwd := resolutionCwd;
           RawOptions.emit := ParsedArgv.emit a;
           RawOptions.files := ParsedArgv.files a;
           RawOptions.pretty := ParsedArgv.pretty a;
           RawOptions.transpileOnly :=
             if nullish_or (ParsedArgv.transpileOnly a)
                           (not_nullish (ParsedArgv.transpiler a))
             then Some true else None;
           RawOptions.experimentalReplAwait :=
             if truthy (ParsedArgv.noExperimentalReplAwait a)
             then Some false else None;
           RawOptions.typeCheck := ParsedArgv.typeCheck a;
           RawOptions.transpiler := ParsedArgv.transpiler a;
           RawOptions.swc := ParsedArgv.swc a;
           RawOptions.compilerHost := ParsedArgv.compilerHost a;
           RawOptions.ignore := ParsedArgv.ignore a;
           RawOptions.logError := ParsedArgv.logError a;
           RawOptions.projectSearchDir := projectSearchDir;
           RawOptions.project := ParsedArgv.project a;
           RawOptions.skipProject := ParsedArgv.skipProject a;
           RawOptions.skipIgnore := ParsedArgv.skipIgnore a;
           RawOptions.compiler := ParsedArgv.compiler a;
           RawOptions.ignoreDiagnostics := ParsedArgv.ignoreDiagnostics a;
           RawOptions.compilerOptions := ParsedArgv.compilerOptions a;
           RawOptions.require := ParsedArgv.argsRequire a;
           RawOptions.scope := ParsedArgv.scope a;
           RawOptions.scopeDir := ParsedArgv.scopeDir a;
           RawOptions.preferTsExts := ParsedArgv.preferTsExts a;
           RawOptions.esm := ParsedArgv.esm a;
           RawOptions.experimentalSpecifierResolution :=
             ParsedArgv.experimentalSpecifierResolution a |} in
      preloadedConfig <-
        call (call_findAndReadConfig options) (findAndReadConfig H options) ;;
      ret {| preloadedConfig := preloadedConfig;
             enableEsmLoader :=
               ToBoolean (js_or (optbool (options_esm H preloadedConfig))
                                (optbool (ParsedArgv.esm a))) |}
  | _, _ =>
      throw (TypeError "Cannot destructure 'payload.initialArgv' as it is undefined.")
  end.

(** *** [createBootstrapStateForChildProcess] (lines 740-752) *)

(** The object literal is built field by field; [state.phase3Result!] fails
    on an object without [phase3Result]. *)
Definition createBootstrapStateForChildProcess
    (st : BootstrapStateForChild) : Outcome BootstrapStateForChild :=
  match phase3Result st with
  | Some p3 =>
      Returned
        {| restArgs := restArgs st;
           phase3Result :=
             Some {| preloadedConfig := preloadedConfig p3;
                     enableEsmLoader := enableEsmLoader p3 |};
           initialArgv := None;
           initialResolutionCwd := None |}
  | None =>
      Threw (TypeError
        "Cannot read properties of undefined (reading 'enableEsmLoader')")
  end.

(** *** [evalAndExitOnTsError] (lines 830-858) *)

Definition evalAndExitOnTsError (replService : ReplService)
    (module : ModuleRec) (code : string) (isPrinted : bool)
    (filenameAndDirname : FilenameAndDirname) : JS unit :=
  emit (call_setupContext module filenameAndDirname) ;;
  result <-
    try_catch
      (call (call_evalCode replService code) (evalCode H replService code))
      (fun error =>
         when (instanceof_TSError error)
           (emit (console_error_thrown error) ;;
            process_exit 1) ;;
         throw error) ;;
  when isPrinted
    (p <- gets proc ;;
     emit (console_log
             match result with
             | ResultString text => text
             | ResultOther _ => inspect H result (process.stdout_isTTY p)
             end)).

(** *** [phase4] (lines 511-738) *)

(** [createRepl({ state, composeWithEvalAwarePartialHost, ... })] of
    [./repl]: the returned service keeps the state it was given, answers for
    that state's path on top of the overlay it composes with, and has no
    compiler service yet. *)
Definition createRepl (st : EvalState)
    (composeWithEvalAwarePartialHost : option EvalAwarePartialHost)
    (ignoreDiagnostics : option bool) : JS ReplService :=
  let r :=
    {| repl_state := st;
       evalAwarePartialHost :=
         path st :: nullish_or composeWithEvalAwarePartialHost [];
       ignoreDiagnosticsThatAreAnnoyingInInteractiveRepl :=
         ignoreDiagnostics;
       repl_service := None |} in
  emit (call_createRepl r) ;;
  ret r.

(** Lines 542-555 and 558-571: a virtual file with a module of its own. *)
Definition createVirtualFileWithModule (filename name resolutionCwd : string)
    (host : option EvalAwarePartialHost) : JS VirtualFileState :=
  let st := {| path := path_join H resolutionCwd filename |} in
  r <- createRepl st host (Some false) ;;
  ret {| state := st;
         repl := r;
         module :=
           Some {| module_id := name;
                   module_filename := path st;
                   module_paths := nodeModulePaths H resolutionCwd |} |}.

(** Lines 574-582: the virtual file of the interactive REPL. *)
Definition createReplVirtualFile (resolutionCwd : string)
    (host : option EvalAwarePartialHost) : JS VirtualFileState :=
  let st := {| path := path_join H resolutionCwd (REPL_FILENAME H) |} in
  r <- createRepl st host None ;;
  ret {| state := st; repl := r; module := None |}.

(** [({ evalAwarePartialHost } = stuff.repl)]. *)
Definition hostOf (stuff : VirtualFileState) : option EvalAwarePartialHost :=
  Some (evalAwarePartialHost (repl stuff)).

(** [stuff?.repl.setService(service)]: the service object is updated in
    place, so the virtual file sees the bound service afterwards. *)
Definition setService (stuff : option VirtualFileState) (service : Service)
  : JS (option VirtualFileState) :=
  match stuff with
  | None => ret None
  | Some v =>
      emit (call_setService (repl v) service) ;;
      ret (Some
             {| state := state v;
                repl :=
                  {| repl_state := repl_state (repl v);
                     evalAwarePartialHost := evalAwarePartialHost (repl v);
                     ignoreDiagnosticsThatAreAnnoyingInInteractiveRepl :=
                       ignoreDiagnosticsThatAreAnnoyingInInteractiveRepl
                         (repl v);
                     repl_service := Some service |};
                module := module v |})
  end.

(** Lines 609-623: [-vv] and [-vvv]. *)
Definition printVersionInformation (payload : BootstrapStateForChild)
    (service : Service) : JS unit :=
  let version := option_map ParsedArgv.version (initialArgv payload) in
  p <- gets proc ;;
  when (match version with Some 2 => true | _ => false end)
    (emit (console_log ("ts-node v" ++ VERSION H)) ;;
     emit (console_log ("node " ++ process.version p)) ;;
     emit (console_log ("compiler v" ++ ts_version H service)) ;;
     process_exit 0) ;;
  when (Nat.leb 3 (nullish_or version 0))
    (emit (console_log
             ("ts-node v" ++ VERSION H ++ " " ++ path_dirname H (dirname_ H))) ;;
     emit (console_log ("node " ++ process.version p)) ;;
     emit (console_log
             ("compiler v" ++ ts_version H service ++ " "
              ++ nullish_or (compilerPath H service) "")) ;;
     process_exit 0).

(** Lines 625-672: [--showConfig].  The JSON document of lines 633-670 is
    computed from [service] and [resolutionCwd] alone and is kept as one
    function of the host. *)
Definition printConfiguration (payload : BootstrapStateForChild)
    (service : Service) (resolutionCwd : string) : JS unit :=
  when (match initialArgv payload with
        | Some a => truthy (ParsedArgv.showConfig a)
        | None => false
        end)
    (when (negb (convertToTSConfig_is_function H service))
       (emit (console_error
          "Error: --showConfig requires a typescript versions >=3.2 that support --showConfig") ;;
        process_exit 1) ;;
     emit (console_log (showConfig_json H service resolutionCwd)) ;;
     process_exit 0).

(** Lines 723-736: the two listeners are registered, nothing is evaluated
    yet. *)
Definition listenOnStdin (payload : BootstrapStateForChild)
    (stuff : option VirtualFileState) : JS unit :=
  let buffer :=
    nullish_or
      match initialArgv payload with
      | Some a => ParsedArgv.code a
      | None => None
      end "" in
  modify (with_stdin_listeners
            (Some {| buffer := buffer;
                     stdinStuff := stuff;
                     listener_payload := payload |})) ;;
  emit (stdin_on "data") ;;
  emit (stdin_on "end").

(** Lines 514-526: the resolution directory and the entry-point
    information [phase4] works with. *)
Definition phase4_resolutionCwd (p : process.t)
    (payload : BootstrapStateForChild) : string :=
  nullish_or (initialResolutionCwd payload) (process.cwd p).

Definition phase4_entryPointInfo (p : process.t)
    (payload : BootstrapStateForChild) : EntryPointInfo :=
  getEntryPointInfo p (phase4_resolutionCwd p payload)
    match initialArgv payload with
    | Some a => ParsedArgv.code a
    | None => None
    end
    (option_map ParsedArgv.interactive (initialArgv payload))
    (restArgs payload).

Definition phase4 (payload : BootstrapStateForChild) : JS unit :=
  match phase3Result payload with
  | None =>
      throw (TypeError
        "Cannot destructure property 'preloadedConfig' of 'payload.phase3Result' as it is undefined.")
  | Some p3 =>
      p <- gets proc ;;
      let resolutionCwd := phase4_resolutionCwd p payload in
      let info := phase4_entryPointInfo p payload in
      (* lines 537-583 *)
      evalStuff <-
        (if executeEval info
         then v <- createVirtualFileWithModule (EVAL_FILENAME H)
                     (EVAL_NAME H) resolutionCwd None ;;
              ret (Some v)
         else ret None) ;;
      let host1 :=
        match evalStuff with Some v => hostOf v | None => None end in
      stdinStuff <-
        (if executeStdin info
         then v <- createVirtualFileWithModule (STDIN_FILENAME H)
                     (STDIN_NAME H) resolutionCwd host1 ;;
              ret (Some v)
         else ret None) ;;
      let host2 :=
        match stdinStuff with Some v => hostOf v | None => host1 end in
      replStuff <-
        (if ToBoolean (executeRepl info)
         then v <- createReplVirtualFile resolutionCwd host2 ;;
              ret (Some v)
         else ret None) ;;
      let host3 :=
        match replStuff with Some v => hostOf v | None => host2 end in
      (* lines 585-607 *)
      service <-
        call (call_createFromPreloadedConfig (preloadedConfig p3) host3)
             (createFromPreloadedConfig H (preloadedConfig p3) host3) ;;
      emit (call_register service) ;;
      when (enableEsmLoader p3) (emit (call_lateBindHooks service)) ;;
      replStuff <- setService replStuff service ;;
      evalStuff <- setService evalStuff service ;;
      stdinStuff <- setService stdinStuff service ;;
      (* lines 609-672 *)
      printVersionInformation payload service ;;
      printConfiguration payload service resolutionCwd ;;
      (* lines 674-692 *)
      forkPersistentBootstrapState <-
        lift (createBootstrapStateForChildProcess payload) ;;
      let (childScriptPath, childScriptArgs) :=
        getChildProcessArguments H (enableEsmLoader p3)
          forkPersistentBootstrapState in
      modify (fun w =>
                with_proc
                  (process.with_execArgv
                     (process.execArgv (proc w)
                        ++ childScriptPath :: childScriptArgs)
                     (proc w)) w) ;;
      modify (fun w =>
                with_proc
                  (process.with_argv
                     ([match nth_error (process.argv (proc w)) 1 with
                       | Some a => a
                       | None => None
                       end]
                        ++ (if executeEntrypoint info
                            then [entryPointPath info] else [])
                        ++ map Some
                             (skipn (if executeEntrypoint info then 1 else 0)
                                    (restArgs payload)))
                     (proc w)) w) ;;
      (* lines 694-737 *)
      if executeEntrypoint info
      then
        p <- gets proc ;;
        if enableEsmLoader p3
           && versionGteLt H (process.versions_node p) "18.6.0"
        then emit (call_runMainHack (entryPointPath info))
        else emit call_runMain
      else
        when (executeEval info)
          (emit call_addBuiltinLibsToObject ;;
           match evalStuff, initialArgv payload with
           | Some v, Some a =>
               match module v, ParsedArgv.code a with
               | Some m, Some code =>
                   evalAndExitOnTsError (repl v) m code (ParsedArgv.print a)
                     for_eval
               | _, _ =>
                   (* [module!], [code!]: not reached under [executeEval] *)
                   throw (TypeError "Cannot read properties of undefined")
               end
           | _, _ =>
               (* [evalStuff!], [initialArgv!]: not reached *)
               throw (TypeError "Cannot read properties of undefined")
           end) ;;
        when (ToBoolean (executeRepl info))
          match replStuff with
          | Some v => emit (call_repl_start (repl v))
          | None =>
              (* [replStuff!]: not reached under [executeRepl] *)
              throw (TypeError "Cannot read properties of undefined")
          end ;;
        when (executeStdin info) (listenOnStdin payload stdinStuff)
  end.

(** The ['data'] listener of line 725: [buffer += chunk]. *)
Definition stdin_data (chunk : string) : JS unit :=
  modify (fun w =>
            match stdin_listeners w with
            | Some l =>
                with_stdin_listeners
                  (Some {| buffer := (buffer l ++ chunk)%string;
                           stdinStuff := stdinStuff l;
                           listener_payload := listener_payload l |}) w
            | None => w
            end).

(** The ['end'] listener of lines 726-735. *)
Definition stdin_end : JS unit :=
  l <- gets stdin_listeners ;;
  match l with
  | None => ret tt
  | Some l =>
      match stdinStuff l with
      | Some v =>
          match module v with
          | Some m =>
              evalAndExitOnTsError (repl v) m (buffer l)
                (nullish_or
                   (option_map ParsedArgv.print
                               (initialArgv (listener_payload l)))
                   false)
                for_stdin
          | None => throw (TypeError "Cannot read properties of undefined")
          end
      | None => throw (TypeError "Cannot read properties of undefined")
      end
  end.

(** Standard input delivering its chunks in order, then end-of-stream. *)
Fixpoint stdin_stream (chunks : list string) : JS unit :=
  match chunks with
  | [] => stdin_end
  | chunk :: rest => stdin_data chunk ;; stdin_stream rest
  end.

(** *** [completeBootstrap] (lines 130-147) and [bootstrap] (lines 101-128) *)

Definition completeBootstrap (st : BootstrapStateForChild) : JS unit :=
  st' <-
    match phase3Result st with
    | None =>
        p3 <- phase3 st ;;
        ret {| restArgs := restArgs st;
               phase3Result := Some p3;
               initialArgv := initialArgv st;
               initialResolutionCwd := initialResolutionCwd st |}
    | Some _ => ret st
    end ;;
  phase4 st'.

(** [callInChildWithEsm] of [./child/spawn-child-with-esm] is recorded in
    the trace with the state object it is handed. *)
Definition bootstrap (st : BootstrapState) : JS unit :=
  p2 <- phase2 st ;;
  let initialProcessState :=
    {| restArgs := ParsedArgv.restArgs (parseArgvResult st);
       phase3Result := None;
       initialArgv := Some (parseArgvResult st);
       initialResolutionCwd := Some (resolutionCwd p2) |} in
  if truthy (ParsedArgv.esm (parseArgvResult st))
  then
    p <- gets proc ;;
    emit (callInChildWithEsm initialProcessState (process.cwd p))
  else
    p3 <- phase3 initialProcessState ;;
    if enableEsmLoader p3
    then
      p <- gets proc ;;
      emit (callInChildWithEsm initialProcessState (process.cwd p))
    else
      completeBootstrap
        {| restArgs := restArgs initialProcessState;
           phase3Result := Some p3;
           initialArgv := initialArgv initialProcessState;
           initialResolutionCwd :=
             initialResolutionCwd initialProcessState |}.

(** *** The spawned child *)

(** Modelled from the spec: [./child/spawn-child-with-esm] and the child's
    entry script are not part of this file.  The spawned child resumes the
    pipeline with the state object it was handed, through
    [completeBootstrap], in a process of its own. *)
Definition child_entrypoint (st : BootstrapStateForChild) : JS unit :=
  completeBootstrap st.

(** *** Reading a trace *)

(** How many times [findAndReadConfig] was invoked. *)
Definition is_config_lookup (e : Event) : bool :=
  match e with
  | call_findAndReadConfig _ => true
  | _ => false
  end.

Definition config_lookups (t : list Event) : nat :=
  length (filter is_config_lookup t).

(** [m] never invokes [findAndReadConfig]. *)
Definition quiet {A : Type} (m : JS A) : Prop :=
  forall w, config_lookups (trace (snd (m w))) = config_lookups (trace w).

(** The states handed to [callInChildWithEsm]. *)
Definition spawned (t : list Event) : list BootstrapStateForChild :=
  flat_map (fun e =>
              match e with
              | callInChildWithEsm st _ => [st]
              | _ => []
              end) t.

(** The source texts handed to [evalCode], with the service that got them. *)
Definition evaluated (t : list Event) : list (ReplService * string) :=
  flat_map (fun e =>
              match e with
              | call_evalCode r code => [(r, code)]
              | _ => []
              end) t.

(** What [console.log] printed. *)
Definition printed (t : list Event) : list string :=
  flat_map (fun e =>
              match e with
              | console_log text => [text]
              | _ => []
              end) t.

(** Among the events [added] by a run, [marker] occurs, nothing is printed
    before it, and exactly [lines] are printed after it. *)
Definition prints_after (marker : Event) (lines : list string)
    (added : list Event) : Prop :=
  exists before after,
    added = before ++ marker :: after
    /\ printed before = []
    /\ printed after = lines.

(** *** The statements about the spawned child and the forked child, as the
    specification words them *)

(** "The continuation state handed to the child carries the already-computed
    phase3 result, and [completeBootstrap] in the child consumes it without
    calling phase3 again": for a run of [bootstrap] from [w0] whose child
    starts in [wc]. *)
Definition child_reuses_configuration (st0 : BootstrapState)
    (w0 wc : World) : Prop :=
  forall st,
    In st (spawned (trace (snd (bootstrap st0 w0)))) ->
    phase3Result st <> None
    /\ config_lookups (trace (snd (child_entrypoint st wc)))
       = config_lookups (trace wc).

(** The non-forked state with the inline code left out. *)
Definition without_code (a : ParsedArgv.t) : ParsedArgv.t :=
  {| ParsedArgv.argv := ParsedArgv.argv a;
     ParsedArgv.restArgs := ParsedArgv.restArgs a;
     ParsedArgv.cwdArg := ParsedArgv.cwdArg a;
     ParsedArgv.help := ParsedArgv.help a;
     ParsedArgv.scriptMode := ParsedArgv.scriptMode a;
     ParsedArgv.cwdMode := ParsedArgv.cwdMode a;
     ParsedArgv.version := ParsedArgv.version a;
     ParsedArgv.showConfig := ParsedArgv.showConfig a;
     ParsedArgv.argsRequire := ParsedArgv.argsRequire a;
     ParsedArgv.code := None;
     ParsedArgv.print := ParsedArgv.print a;
     ParsedArgv.interactive := ParsedArgv.interactive a;
     ParsedArgv.files := ParsedArgv.files a;
     ParsedArgv.compiler := ParsedArgv.compiler a;
     ParsedArgv.compilerOptions := ParsedArgv.compilerOptions a;
     ParsedArgv.project := ParsedArgv.project a;
     ParsedArgv.ignoreDiagnostics := ParsedArgv.ignoreDiagnostics a;
     ParsedArgv.ignore := ParsedArgv.ignore a;
     ParsedArgv.transpileOnly := ParsedArgv.transpileOnly a;
     ParsedArgv.typeCheck := ParsedArgv.typeCheck a;
     ParsedArgv.transpiler := ParsedArgv.transpiler a;
     ParsedArgv.swc := ParsedArgv.swc a;
     ParsedArgv.compilerHost := ParsedArgv.compilerHost a;
     ParsedArgv.pretty := ParsedArgv.pretty a;
     ParsedArgv.skipProject := ParsedArgv.skipProject a;
     ParsedArgv.skipIgnore := ParsedArgv.skipIgnore a;
     ParsedArgv.preferTsExts := ParsedArgv.preferTsExts a;
     ParsedArgv.logError := ParsedArgv.logError a;
     ParsedArgv.emit := ParsedArgv.emit a;
     ParsedArgv.scope := ParsedArgv.scope a;
     ParsedArgv.scopeDir := ParsedArgv.scopeDir a;
     ParsedArgv.noExperimentalReplAwait :=
       ParsedArgv.noExperimentalReplAwait a;
     ParsedArgv.experimentalSpecifierResolution :=
       ParsedArgv.experimentalSpecifierResolution a;
     ParsedArgv.esm := ParsedArgv.esm a |}.

Definition state_without_code (st : BootstrapStateForChild)
  : BootstrapStateForChild :=
  {| restArgs := restArgs st;
     phase3Result := phase3Result st;
     initialArgv := option_map without_code (initialArgv st);
     initialResolutionCwd := initialResolutionCwd st |}.

(** A way of passing the continuation state to a forked child: [encode]
    produces what travels in the child's arguments, [decode] is what the
    child reads back.  The rest arguments survive, and a field the state
    lacks is not made up on the way. *)
Definition marshals {Wire : Type}
    (encode : BootstrapStateForChild -> Wire)
    (decode : Wire -> option BootstrapStateForChild) : Prop :=
  forall st,
    exists st',
      decode (encode st) = Some st'
      /\ restArgs st' = restArgs st
      /\ (initialArgv st = None -> initialArgv st' = None)
      /\ (initialResolutionCwd st = None -> initialResolutionCwd st' = None).

(** "The continuation state, serialized then deserialized, reproduces an
    EntryPointInfo computation identical to one computed directly from the
    same rest arguments in a non-forked run, the inline code left out":
    for the non-forked state [payload], in a process [p]. *)
Definition fork_reproduces_entry_point {Wire : Type}
    (encode : BootstrapStateForChild -> Wire)
    (decode : Wire -> option BootstrapStateForChild)
    (p : process.t) (payload : BootstrapStateForChild) : Prop :=
  forall forked child,
    createBootstrapStateForChildProcess payload = Returned forked ->
    decode (encode forked) = Some child ->
    phase4_entryPointInfo p child
    = phase4_entryPointInfo p (state_without_code payload).

End Model.

Unset Implicit Arguments.
Unset Contextual Implicit.

(** ** Observations of a run *)

Section Observations.

Context {PreloadedConfig Service : Type}.

(** [m] leaves the observation [obs] of the process state as it found it,
    however it completes. *)
Definition keeps {X A : Type} (obs : World PreloadedConfig Service -> X)
    (m : JS PreloadedConfig Service A) : Prop :=
  forall w, obs (snd (m w)) = obs w.

(** The events of the trace selected by [f], in order. *)
Definition events_where (f : Event PreloadedConfig Service -> bool)
    (w : World PreloadedConfig Service)
  : list (Event PreloadedConfig Service) :=
  filter f (trace w).

(** A child process is spawned. *)
Definition is_spawn (e : Event PreloadedConfig Service) : bool :=
  match e with
  | callInChildWithEsm _ _ => true
  | _ => false
  end.

(** The compiler service is constructed. *)
Definition is_service_construction (e : Event PreloadedConfig Service)
  : bool :=
  match e with
  | call_createFromPreloadedConfig _ _ => true
  | _ => false
  end.

(** User code is started: the entry point, an evaluation, the REPL, or the
    listeners on standard input. *)
Definition is_execution (e : Event PreloadedConfig Service) : bool :=
  match e with
  | call_evalCode _ _ | call_repl_start _ | call_runMain
  | call_runMainHack _ | stdin_on _ => true
  | _ => false
  end.

(** Something is written to standard output or standard error. *)
Definition is_output (e : Event PreloadedConfig Service) : bool :=
  match e with
  | console_log _ | console_error_thrown _ | console_error _ => true
  | _ => false
  end.

(** The search paths handed to [req.resolve], one list per call. *)
Definition resolution_paths (t : list (Event PreloadedConfig Service))
  : list (list string) :=
  flat_map (fun e =>
              match e with
              | call_require_resolve _ _ paths => [paths]
              | _ => []
              end) t.

End Observations.

(** ** A concrete host, for running the model on examples *)

Module Demo.

(** A simplified [path.resolve]: an absolute segment restarts the path. *)
Definition resolve (cwd : string) (segments : list string) : string :=
  fold_left
    (fun acc segment =>
       if String.prefix "/" segment then segment
       else (acc ++ "/" ++ segment)%string)
    segments cwd.

Fixpoint parse_from (s pre cur : string) : string * string :=
  match s with
  | EmptyString => (pre, cur)
  | String c rest =>
      if Ascii.eqb c "/"%char
      then parse_from rest (pre ++ cur)%string "/"
      else parse_from rest pre (cur ++ String c EmptyString)%string
  end.

(** [path.parse], reduced to [{ dir, base }]. *)
Definition parse (s : string) : string * string :=
  let (dir, base) := parse_from s "" "" in
  (dir, match base with
        | String _ name => name
        | EmptyString => EmptyString
        end).

(** The merged configuration is reduced to its [esm] option, the compiler
    service to its version string, and non-string results to numbers. *)
Definition Config : Type := option bool.
Definition Compiler : Type := string.

Definition eval (code : string) : Outcome (EvalResult nat) :=
  if String.eqb code "1+1" then Returned (ResultOther 2)
  else if String.eqb code "const n: number = 'a'"
  then Threw (TSError "TS2322: Type 'string' is not assignable to type 'number'.")
  else if String.eqb code "throw new Error('x')"
  then Threw (OtherThrown "Error: x")
  else Returned (ResultString code).

(** A host whose configuration files set [esm] to [configEsm]. *)
Definition host (configEsm : option bool) : Host Config Compiler nat :=
  {| path_resolve := resolve;
     path_join := fun a b => (a ++ "/" ++ b)%string;
     path_dirname := fun s => fst (parse s);
     path_parse := parse;
     inspect := fun r _ =>
                  match r with
                  | ResultString s => ("'" ++ s ++ "'")%string
                  | ResultOther n => number_to_string n
                  end;
     nodeModulePaths := fun dir => [(dir ++ "/node_modules")%string];
     require_resolve_paths := fun _ _ => None;
     require_resolve := fun _ requirer request _ =>
                          Returned (fst (parse requirer) ++ "/"
                                    ++ snd (parse request))%string;
     dirname_ := "/opt/ts-node/dist";
     versionGteLt := fun _ _ => false;
     VERSION := "10.9.1";
     createFromPreloadedConfig := fun _ _ => Returned "4.8.4";
     ts_version := fun s => s;
     compilerPath := fun _ => Some "/opt/typescript/lib/typescript.js";
     convertToTSConfig_is_function := fun _ => true;
     showConfig_json := fun _ _ => "{}";
     findAndReadConfig := fun _ => Returned configEsm;
     options_esm := fun c => c;
     EVAL_FILENAME := "[eval].ts";
     STDIN_FILENAME := "[stdin].ts";
     REPL_FILENAME := "<repl>.ts";
     EVAL_NAME := "[eval]";
     STDIN_NAME := "[stdin]";
     evalCode := fun _ code => eval code;
     getChildProcessArguments :=
       fun _ _ => ("/opt/ts-node/dist/child/child-entrypoint.js", []) |}.

(** A process started from [/home/user]; [tty] says whether standard input
    is a terminal. *)
Definition process_of (tty : option bool) : process.t :=
  {| process.cwd := "/home/user";
     process.stdin_isTTY := tty;
     process.stdout_isTTY := None;
     process.argv := [Some "/usr/bin/node"; Some "/opt/ts-node/dist/bin.js"];
     process.execArgv := [];
     process.version := "v18.12.0";
     process.versions_node := "18.12.0" |}.

Definition world_of (tty : option bool) : World Config Compiler :=
  {| proc := process_of tty;
     require_extensions := [".js"; ".json"; ".node"];
     guaranteedNonexistentDirectorySuffix := 0;
     stdin_listeners := None;
     trace := [] |}.

(** The record [parseArgv] returns for a command line that only uses the
    listed flags. *)
Definition cli (help : bool) (version : nat) (cwdArg : option string)
    (scriptMode cwdMode esm : option bool) (code : option string)
    (print interactive : bool) (restArgs : list string) : ParsedArgv.t :=
  {| ParsedArgv.argv := [Some "/usr/bin/node"; Some "/opt/ts-node/dist/bin.js"];
     ParsedArgv.restArgs := restArgs;
     ParsedArgv.cwdArg := cwdArg;
     ParsedArgv.help := help;
     ParsedArgv.scriptMode := scriptMode;
     ParsedArgv.cwdMode := cwdMode;
     ParsedArgv.version := version;
     ParsedArgv.showConfig := None;
     ParsedArgv.argsRequire := [];
     ParsedArgv.code := code;
     ParsedArgv.print := print;
     ParsedArgv.interactive := interactive;
     ParsedArgv.files := None;
     ParsedArgv.compiler := None;
     ParsedArgv.compilerOptions := None;
     ParsedArgv.project := None;
     ParsedArgv.ignoreDiagnostics := None;
     ParsedArgv.ignore := None;
     ParsedArgv.transpileOnly := None;
     ParsedArgv.typeCheck := None;
     ParsedArgv.transpiler := None;
     ParsedArgv.swc := None;
     ParsedArgv.compilerHost := None;
     ParsedArgv.pretty := None;
     ParsedArgv.skipProject := None;
     ParsedArgv.skipIgnore := None;
     ParsedArgv.preferTsExts := None;
     ParsedArgv.logError := None;
     ParsedArgv.emit := None;
     ParsedArgv.scope := None;
     ParsedArgv.scopeDir := None;
     ParsedArgv.noExperimentalReplAwait := None;
     ParsedArgv.experimentalSpecifierResolution := None;
     ParsedArgv.esm := esm |}.

(** The state [main] starts [bootstrap] with. *)
Definition start (a : ParsedArgv.t) : BootstrapState Config :=
  {| parseArgvResult := a; phase2Result := None; state_phase3Result := None |}.

(** The state of the initial process once [phase3] has run. *)
Definition resolved (a : ParsedArgv.t) (resolutionCwd : string)
    (config : Config) (esmLoader : bool) : BootstrapStateForChild Config :=
  {| restArgs := ParsedArgv.restArgs a;
     phase3Result := Some {| preloadedConfig := config;
                             enableEsmLoader := esmLoader |};
     initialArgv := Some a;
     initialResolutionCwd := Some resolutionCwd |}.

(** Command lines used as examples. *)

(** [ts-node a.ts x]. *)
Definition run_script : ParsedArgv.t :=
  cli false 0 None None None None None false false ["a.ts"; "x"].

(** [echo text | ts-node -p]. *)
Definition piped : ParsedArgv.t :=
  cli false 0 None None None None None true false [].

(** [ts-node -i], standard input not being a terminal. *)
Definition interactive_only : ParsedArgv.t :=
  cli false 0 None None None None None false true [].

(** [ts-node --cwd /srv/app a.ts]. *)
Definition other_directory : ParsedArgv.t :=
  cli false 0 (Some "/srv/app") None None None None false false ["a.ts"].

(** [ts-node --esm -p -e 1+1]. *)
Definition esm_eval : ParsedArgv.t :=
  cli false 0 None None None (Some true) (Some "1+1") true false [].

(** [ts-node --script-mode --cwd-mode a.ts] and [ts-node --script-mode]. *)
Definition both_modes : ParsedArgv.t :=
  cli false 0 None (Some true) (Some true) None None false false ["a.ts"].
Definition script_mode_alone : ParsedArgv.t :=
  cli false 0 None (Some true) None None None false false [].

(** [ts-node -v], [ts-node -vv] and [ts-node -vvv]. *)
Definition version_flags (count : nat) : ParsedArgv.t :=
  cli false count None None None None None false false [].

(** The service and module of the [[eval]] virtual file. *)
Definition eval_repl : ReplService Compiler :=
  {| repl_state := {| path := "/home/user/[eval].ts" |};
     evalAwarePartialHost := ["/home/user/[eval].ts"];
     ignoreDiagnosticsThatAreAnnoyingInInteractiveRepl := Some false;
     repl_service := Some "4.8.4" |}.

Definition eval_module : ModuleRec :=
  {| module_id := "[eval]";
     module_filename := "/home/user/[eval].ts";
     module_paths := ["/home/user/node_modules"] |}.

(** The state of the initial process before [phase3]. *)
Definition initial (a : ParsedArgv.t) (resolutionCwd : string)
  : BootstrapStateForChild Config :=
  {| restArgs := ParsedArgv.restArgs a;
     phase3Result := None;
     initialArgv := Some a;
     initialResolutionCwd := Some resolutionCwd |}.

(** Further command lines. *)

(** [ts-node -p -e 1+1]. *)
Definition eval_print : ParsedArgv.t :=
  cli false 0 None None None None (Some "1+1") true false [].

(** [ts-node -i -p -e 1+1]. *)
Definition eval_then_repl : ParsedArgv.t :=
  cli false 0 None None None None (Some "1+1") true true [].

(** [ts-node -e "const n: number = 'a'"]. *)
Definition eval_type_error : ParsedArgv.t :=
  cli false 0 None None None None (Some "const n: number = 'a'") false false
    [].

(** [ts-node --showConfig]. *)
Definition show_config : ParsedArgv.t :=
  {| ParsedArgv.argv := ParsedArgv.argv piped;
     ParsedArgv.restArgs := [];
     ParsedArgv.cwdArg := None;
     ParsedArgv.help := false;
     ParsedArgv.scriptMode := None;
     ParsedArgv.cwdMode := None;
     ParsedArgv.version := 0;
     ParsedArgv.showConfig := Some true;
     ParsedArgv.argsRequire := [];
     ParsedArgv.code := None;
     ParsedArgv.print := false;
     ParsedArgv.interactive := false;
     ParsedArgv.files := None;
     ParsedArgv.compiler := None;
     ParsedArgv.compilerOptions := None;
     ParsedArgv.project := None;
     ParsedArgv.ignoreDiagnostics := None;
     ParsedArgv.ignore := None;
     ParsedArgv.transpileOnly := None;
     ParsedArgv.typeCheck := None;
     ParsedArgv.transpiler := None;
     ParsedArgv.swc := None;
     ParsedArgv.compilerHost := None;
     ParsedArgv.pretty := None;
     ParsedArgv.skipProject := None;
     ParsedArgv.skipIgnore := None;
     ParsedArgv.preferTsExts := None;
     ParsedArgv.logError := None;
     ParsedArgv.emit := None;
     ParsedArgv.scope := None;
     ParsedArgv.scopeDir := None;
     ParsedArgv.noExperimentalReplAwait := None;
     ParsedArgv.experimentalSpecifierResolution := None;
     ParsedArgv.esm := None |}.

(** The continuation state a fork of [ts-node a.ts x] starts from. *)
Definition forked_script : BootstrapStateForChild Config :=
  {| restArgs := ["a.ts"; "x"];
     phase3Result := Some {| preloadedConfig := None;
                             enableEsmLoader := false |};
     initialArgv := None;
     initialResolutionCwd := None |}.

(** The options [phase3] hands to [findAndReadConfig] for [ts-node a.ts x]
    started in [/home/user]. *)
Definition script_options : RawOptions.t :=
  {| RawOptions.cwd := "/home/user";
     RawOptions.emit := None;
     RawOptions.files := None;
     RawOptions.pretty := None;
     RawOptions.transpileOnly := None;
     RawOptions.experimentalReplAwait := None;
     RawOptions.typeCheck := None;
     RawOptions.transpiler := None;
     RawOptions.swc := None;
     RawOptions.compilerHost := None;
     RawOptions.ignore := None;
     RawOptions.logError := None;
     RawOptions.projectSearchDir := Some "/home/user";
     RawOptions.project := None;
     RawOptions.skipProject := None;
     RawOptions.skipIgnore := None;
     RawOptions.compiler := None;
     RawOptions.ignoreDiagnostics := None;
     RawOptions.compilerOptions := None;
     RawOptions.require := [];
     RawOptions.scope := None;
     RawOptions.scopeDir := None;
     RawOptions.preferTsExts := None;
     RawOptions.esm := None;
     RawOptions.experimentalSpecifierResolution := None |}.

End Demo.

(** * Properties *)

Section EntryPointProperties.

Context {PreloadedConfig Service Obj : Type}.
Variable H : Host PreloadedConfig Service Obj.

(** [restArgs[0]] is defined wherever [getEntryPointInfo] reads it. *)
Lemma executeEntrypoint_rest_not_empty :
  forall p resolutionCwd code interactive rest,
    executeEntrypoint
      (getEntryPointInfo H p resolutionCwd code interactive rest) = true ->
    exists script others, rest = script :: others.
Proof.
  intros p resolutionCwd code interactive [|script others] Hentry.
  - cbn in Hentry. rewrite andb_false_r in Hentry. discriminate.
  - now exists script, others.
Qed.

(** Standard input is only read when no inline code was given. *)
Lemma executeStdin_code_absent :
  forall p resolutionCwd code interactive rest,
    executeStdin
      (getEntryPointInfo H p resolutionCwd code interactive rest) = true ->
    code = None.
Proof.
  intros p resolutionCwd [c|] interactive rest; [|reflexivity].
  destruct interactive as [[|]|], rest as [|script others],
    (process.stdin_isTTY p) as [[|]|] eqn:Htty;
    cbn; rewrite ?Htty; cbn; discriminate.
Qed.

(** C1. [getEntryPointInfo] computes the four mode flags by the formulas of
    the dispatcher: [executeEval] holds when code is present and not
    (interactive with rest arguments); [executeEntrypoint] when
    [executeEval] fails and rest arguments exist; [executeRepl] is truthy
    when [executeEntrypoint] fails and (interactive, or standard input is a
    terminal and [executeEval] fails), and is that very boolean when both
    flags are booleans; [executeStdin] holds when the other three fail; and
    [entryPointPath] is the first rest argument resolved against the
    resolution directory under [executeEntrypoint], absent otherwise.  Code
    without the interactive flag gives [executeEval] whatever the rest
    arguments; code with the interactive flag and rest arguments gives the
    entry point instead. *)
Theorem getEntryPointInfo_modes :
  forall (p : process.t) (resolutionCwd : string) (code : option string)
         (interactive : option bool) (rest : list string),
    let info := getEntryPointInfo H p resolutionCwd code interactive rest in
    let nonEmpty := negb (Nat.eqb (length rest) 0) in
    executeEval info
    = not_nullish code && negb (truthy interactive && nonEmpty)
    /\ executeEntrypoint info = negb (executeEval info) && nonEmpty
    /\ ToBoolean (executeRepl info)
       = negb (executeEntrypoint info)
         && (truthy interactive
             || (truthy (process.stdin_isTTY p) && negb (executeEval info)))
    /\ (forall i t,
           interactive = Some i ->
           process.stdin_isTTY p = Some t ->
           executeRepl info
           = JsBool (negb (executeEntrypoint info)
                     && (i || (t && negb (executeEval info)))))
    /\ executeStdin info
       = negb (executeEval info) && negb (ToBoolean (executeRepl info))
         && negb (executeEntrypoint info)
    /\ entryPointPath info
       = (if executeEntrypoint info
          then Some (path_resolve H (process.cwd p)
                       [resolutionCwd; hd "" rest])
          else None)
    /\ (not_nullish code = true ->
        truthy interactive = false ->
        executeEval info = true)
    /\ (not_nullish code = true ->
        truthy interactive = true ->
        nonEmpty = true ->
        executeEval info = false /\ executeEntrypoint info = true).
Proof.
  intros p resolutionCwd code interactive rest info nonEmpty.
  subst info nonEmpty. unfold getEntryPointInfo. cbn [executeEval
    executeEntrypoint executeRepl executeStdin entryPointPath].
  destruct code as [c|], interactive as [[|]|], rest as [|script others],
    (process.stdin_isTTY p) as [[|]|];
    cbn; repeat split; intros; try congruence;
    repeat match goal with
           | E : Some _ = Some _ |- _ => injection E as <-
           end; try reflexivity; try discriminate.
Qed.

(** C2. Whenever [executeEval] is false, exactly one of
    [executeEntrypoint], [executeRepl] and [executeStdin] is set. *)
Theorem entry_mode_exclusive :
  forall (p : process.t) (resolutionCwd : string) (code : option string)
         (interactive : option bool) (rest : list string),
    let info := getEntryPointInfo H p resolutionCwd code interactive rest in
    executeEval info = false ->
    count_true [executeEntrypoint info; ToBoolean (executeRepl info);
                executeStdin info] = 1.
Proof.
  intros p resolutionCwd code interactive rest info. subst info.
  unfold getEntryPointInfo. cbn [executeEval executeEntrypoint executeRepl
    executeStdin].
  destruct code as [c|], interactive as [[|]|], rest as [|script others],
    (process.stdin_isTTY p) as [[|]|];
    cbn; intros; try reflexivity; discriminate.
Qed.

End EntryPointProperties.

(** ** Stepping through the monad *)

Lemma bind_Returned_inv :
  forall {W A B : Type} (m : M W A) (f : A -> M W B) w b w',
    bind m f w = (Returned b, w') ->
    exists a w1, m w = (Returned a, w1) /\ f a w1 = (Returned b, w').
Proof.
  intros W A B m f w b w' Hrun. unfold bind in Hrun.
  destruct (m w) as [[a|e|status] w1]; try discriminate.
  now exists a, w1.
Qed.

Section PhaseProperties.

Context {PreloadedConfig Service Obj : Type}.
Variable H : Host PreloadedConfig Service Obj.

(** C3. With script mode set, [phase3] throws a [TypeError] when cwd mode is
    set as well, and when no script path was resolved from the arguments,
    which is the case whenever the rest arguments are empty.  The process
    state is left as it was: the error is raised before [findAndReadConfig]
    is invoked (the trace did not grow). *)
Theorem phase3_usage_errors :
  forall (payload : BootstrapStateForChild PreloadedConfig)
         (a : ParsedArgv.t) (resolutionCwd : string)
         (w : World PreloadedConfig Service),
    initialArgv payload = Some a ->
    initialResolutionCwd payload = Some resolutionCwd ->
    truthy (ParsedArgv.scriptMode a) = true ->
    let scriptPath :=
      entryPointPath
        (getEntryPointInfo H (proc w) resolutionCwd (ParsedArgv.code a)
           (Some (ParsedArgv.interactive a)) (ParsedArgv.restArgs a)) in
    let usage_error :=
      TypeError
        (if truthy (ParsedArgv.cwdMode a)
         then "--cwd-mode cannot be combined with --script-mode"
         else "--script-mode must be used with a script name, e.g. `ts-node --script-mode <script.ts>`") in
    (truthy (ParsedArgv.cwdMode a) = true ->
     phase3 H payload w = (Threw usage_error, w))
    /\ (truthy_str scriptPath = false ->
        phase3 H payload w = (Threw usage_error, w))
    /\ (ParsedArgv.restArgs a = [] ->
        phase3 H payload w = (Threw usage_error, w)).
Proof.
  intros payload a resolutionCwd w Hargv Hcwd Hscript scriptPath usage_error.
  assert (Hno_path :
            truthy_str scriptPath = false ->
            phase3 H payload w = (Threw usage_error, w)).
  { intros Hpath. unfold phase3. rewrite Hargv, Hcwd.
    unfold bind at 1. cbn [gets]. unfold bind at 1.
    unfold getProjectSearchDir. fold scriptPath.
    rewrite Hscript, Hpath. subst usage_error.
    destruct (truthy (ParsedArgv.cwdMode a)); reflexivity. }
  split; [|split].
  - intros Hboth. unfold phase3. rewrite Hargv, Hcwd.
    unfold bind at 1. cbn [gets]. unfold bind at 1.
    unfold getProjectSearchDir. subst usage_error.
    rewrite Hscript, Hboth. reflexivity.
  - exact Hno_path.
  - intros Hrest. apply Hno_path. subst scriptPath.
    unfold getEntryPointInfo. cbn [entryPointPath]. rewrite Hrest.
    cbn. now rewrite andb_false_r.
Qed.

(** C6. When [phase3] returns, the configuration in its result is the one
    [findAndReadConfig] returned, and [enableEsmLoader] is the disjunction
    of the [--esm] flag and that configuration's [esm] option. *)
Theorem phase3_enableEsmLoader :
  forall (payload : BootstrapStateForChild PreloadedConfig) (w w' : World PreloadedConfig Service)
         (p3 : Phase3Result PreloadedConfig),
    phase3 H payload w = (Returned p3, w') ->
    exists a options before,
      initialArgv payload = Some a
      /\ trace w' = before ++ [call_findAndReadConfig options]
      /\ findAndReadConfig H options = Returned (preloadedConfig p3)
      /\ enableEsmLoader p3
         = truthy (ParsedArgv.esm a)
           || truthy (options_esm H (preloadedConfig p3)).
Proof.
  intros payload w w' p3 Hrun. unfold phase3 in Hrun.
  destruct (initialArgv payload) as [a|]; [|discriminate].
  destruct (initialResolutionCwd payload) as [resolutionCwd|];
    [|discriminate].
  apply bind_Returned_inv in Hrun as (p & w1 & Hp & Hrun).
  apply bind_Returned_inv in Hrun as (dir & w2 & Hdir & Hrun).
  apply bind_Returned_inv in Hrun as (config & w3 & Hconfig & Hrun).
  unfold call in Hconfig. injection Hconfig as Hfound <-.
  unfold ret in Hrun. injection Hrun as <- <-.
  eexists a, _, (trace w2). cbn [trace with_trace preloadedConfig
    enableEsmLoader].
  repeat split; [exact Hfound|].
  unfold js_or, truthy.
  destruct (options_esm H config) as [[|]|], (ParsedArgv.esm a) as [[|]|];
    reflexivity.
Qed.

(** C5. The continuation record for forked processes has the own
    properties [restArgs] and [phase3Result] and no other; [restArgs] is
    the given one and [phase3Result] holds the given [enableEsmLoader] and
    [preloadedConfig].  Nothing of the parsed options is in it (no
    [initialArgv], hence no code, interactive or print flag, and no
    [initialResolutionCwd]), and it does not depend on them.  It is built
    whenever the given state has a [phase3Result]. *)
Theorem createBootstrapStateForChildProcess_fields :
  forall st : BootstrapStateForChild PreloadedConfig,
    (forall forked,
        createBootstrapStateForChildProcess st = Returned forked ->
        ownKeys forked = ["restArgs"; "phase3Result"]
        /\ restArgs forked = restArgs st
        /\ option_map (@enableEsmLoader _) (phase3Result forked)
           = option_map (@enableEsmLoader _) (phase3Result st)
        /\ option_map (@preloadedConfig _) (phase3Result forked)
           = option_map (@preloadedConfig _) (phase3Result st)
        /\ initialArgv forked = None
        /\ initialResolutionCwd forked = None)
    /\ (forall st' : BootstrapStateForChild PreloadedConfig,
           restArgs st' = restArgs st ->
           phase3Result st' = phase3Result st ->
           createBootstrapStateForChildProcess st'
           = createBootstrapStateForChildProcess st)
    /\ (phase3Result st <> None ->
        exists forked,
          createBootstrapStateForChildProcess st = Returned forked).
Proof.
  intros st. unfold createBootstrapStateForChildProcess.
  split; [|split].
  - intros forked Hbuilt.
    destruct (phase3Result st) as [p3|]; [|discriminate].
    injection Hbuilt as <-. cbn. repeat split.
  - intros st' Hrest Hp3. now rewrite Hrest, Hp3.
  - intros Hp3. destruct (phase3Result st) as [p3|]; [eauto|congruence].
Qed.

(** C8. [evalAndExitOnTsError] sets up the context and evaluates the code.
    A thrown [TSError] is printed with [console.error] and the process exits
    with status 1, nothing being printed with [console.log]; any other
    thrown value propagates, nothing being printed; a returned value is
    printed when [isPrinted] is set, as it is when it is a string and
    through [inspect] otherwise, and not printed when it is not set. *)
Theorem evalAndExitOnTsError_outcomes :
  forall (replService : ReplService Service) (module : ModuleRec)
         (code : string) (isPrinted : bool)
         (filenameAndDirname : FilenameAndDirname) (w : World PreloadedConfig Service),
    let started :=
      trace w ++ [call_setupContext module filenameAndDirname;
                  call_evalCode replService code] in
    (forall diagnostics,
        evalCode H replService code = Threw (TSError diagnostics) ->
        evalAndExitOnTsError H replService module code isPrinted
          filenameAndDirname w
        = (Exited 1,
           with_trace
             (started ++ [console_error_thrown (TSError diagnostics)]) w))
    /\ (forall error,
           evalCode H replService code = Threw error ->
           instanceof_TSError error = false ->
           evalAndExitOnTsError H replService module code isPrinted
             filenameAndDirname w
           = (Threw error, with_trace started w))
    /\ (forall result,
           evalCode H replService code = Returned result ->
           evalAndExitOnTsError H replService module code isPrinted
             filenameAndDirname w
           = (Returned tt,
              with_trace
                (started
                   ++ (if isPrinted
                       then [console_log
                               match result with
                               | ResultString text => text
                               | ResultOther _ =>
                                   inspect H result
                                     (process.stdout_isTTY (proc w))
                               end]
                       else [])) w)).
Proof.
  intros replService module code isPrinted filenameAndDirname w started.
  subst started. unfold evalAndExitOnTsError, try_catch, bind, emit, call,
    modify, when, gets, throw, process_exit, ret.
  cbn [trace with_trace proc]. rewrite <- !app_assoc. cbn [app].
  split; [|split].
  - intros diagnostics ->. cbn. rewrite <- !app_assoc. reflexivity.
  - intros error -> Hkind. rewrite Hkind. reflexivity.
  - intros result ->. destruct isPrinted; cbn.
    + rewrite <- !app_assoc. reflexivity.
    + rewrite app_nil_r. destruct w; reflexivity.
Qed.

End PhaseProperties.

(** ** Computations that make no configuration lookup *)

Section Quiet.

Context {PreloadedConfig Service : Type}.

Lemma config_lookups_snoc :
  forall (t : list (Event PreloadedConfig Service)) e,
    config_lookups (t ++ [e])
    = config_lookups t + (if is_config_lookup e then 1 else 0).
Proof.
  intros t e. unfold config_lookups. rewrite filter_app, length_app. cbn.
  now destruct (is_config_lookup e).
Qed.

Lemma quiet_ret :
  forall {A : Type} (a : A),
    quiet (ret a : JS PreloadedConfig Service A).
Proof. intros A a w. reflexivity. Qed.

Lemma quiet_throw :
  forall {A : Type} e, quiet (throw e : JS PreloadedConfig Service A).
Proof. intros A e w. reflexivity. Qed.

Lemma quiet_process_exit :
  forall {A : Type} status,
    quiet (process_exit status : JS PreloadedConfig Service A).
Proof. intros A status w. reflexivity. Qed.

Lemma quiet_lift :
  forall {A : Type} (o : Outcome A),
    quiet (lift o : JS PreloadedConfig Service A).
Proof. intros A o w. reflexivity. Qed.

Lemma quiet_gets :
  forall {A : Type} (f : World PreloadedConfig Service -> A), quiet (gets f).
Proof. intros A f w. reflexivity. Qed.

Lemma quiet_modify :
  forall f : World PreloadedConfig Service -> World PreloadedConfig Service,
    (forall w, trace (f w) = trace w) -> quiet (modify f).
Proof. intros f Hf w. unfold modify. cbn [snd]. now rewrite Hf. Qed.

Lemma quiet_emit :
  forall e : Event PreloadedConfig Service,
    is_config_lookup e = false -> quiet (emit e).
Proof.
  intros e He w. unfold emit, modify. cbn [snd trace with_trace].
  rewrite config_lookups_snoc, He. apply Nat.add_0_r.
Qed.

Lemma quiet_call :
  forall {A : Type} (e : Event PreloadedConfig Service) (o : Outcome A),
    is_config_lookup e = false -> quiet (call e o).
Proof.
  intros A e o He w. unfold call. cbn [snd trace with_trace].
  rewrite config_lookups_snoc, He. apply Nat.add_0_r.
Qed.

Lemma quiet_bind :
  forall {A B : Type} (m : JS PreloadedConfig Service A)
         (f : A -> JS PreloadedConfig Service B),
    quiet m -> (forall a, quiet (f a)) -> quiet (bind m f).
Proof.
  intros A B m f Hm Hf w. unfold bind. specialize (Hm w).
  destruct (m w) as [[a|e|status] w1]; cbn in *; try exact Hm.
  now rewrite Hf.
Qed.

Lemma quiet_when :
  forall (b : bool) (m : JS PreloadedConfig Service unit),
    quiet m -> quiet (when b m).
Proof. intros [|] m Hm; [exact Hm|apply quiet_ret]. Qed.

Lemma quiet_try_catch :
  forall {A : Type} (m : JS PreloadedConfig Service A) handler,
    quiet m -> (forall e, quiet (handler e)) -> quiet (try_catch m handler).
Proof.
  intros A m handler Hm Hh w. unfold try_catch. specialize (Hm w).
  destruct (m w) as [[a|e|status] w1]; cbn in *; try exact Hm.
  now rewrite Hh.
Qed.

Lemma quiet_try_finally :
  forall {A : Type} (m : JS PreloadedConfig Service A) cleanup,
    quiet m -> quiet cleanup -> quiet (try_finally m cleanup).
Proof.
  intros A m cleanup Hm Hc w. unfold try_finally. specialize (Hm w).
  destruct (m w) as [[a|e|status] w1]; cbn in *; try exact Hm;
    specialize (Hc w1);
    destruct (cleanup w1) as [[[]|e'|status'] w2]; cbn in *; congruence.
Qed.

End Quiet.

Ltac quiet_step :=
  match goal with
  | |- quiet (bind _ _) => apply quiet_bind; [|intro]
  | |- quiet (ret _) => apply quiet_ret
  | |- quiet (throw _) => apply quiet_throw
  | |- quiet (process_exit _) => apply quiet_process_exit
  | |- quiet (lift _) => apply quiet_lift
  | |- quiet (gets _) => apply quiet_gets
  | |- quiet (modify _) => apply quiet_modify; intro; reflexivity
  | |- quiet (emit _) => apply quiet_emit; reflexivity
  | |- quiet (call _ _) => apply quiet_call; reflexivity
  | |- quiet (when _ _) => apply quiet_when
  | |- quiet (try_catch _ _) => apply quiet_try_catch; [|intro]
  | |- quiet (try_finally _ _) => apply quiet_try_finally
  | |- quiet (match ?x with _ => _ end) => destruct x
  end.

Section BootstrapProperties.

Context {PreloadedConfig Service Obj : Type}.
Variable H : Host PreloadedConfig Service Obj.

Lemma installExtensions_quiet :
  forall exts installed,
    quiet (installExtensions (PreloadedConfig := PreloadedConfig)
             (Service := Service) exts installed).
Proof.
  induction exts as [|ext rest IH]; intros installed; cbn [installExtensions].
  - apply quiet_ret.
  - repeat quiet_step; apply IH.
Qed.

Lemma removeExtensions_quiet :
  forall exts,
    quiet (removeExtensions (PreloadedConfig := PreloadedConfig)
             (Service := Service) exts).
Proof.
  induction exts as [|ext rest IH]; cbn [removeExtensions].
  - apply quiet_ret.
  - repeat quiet_step. apply IH.
Qed.

Lemma getProjectSearchDir_quiet :
  forall cwd scriptMode cwdMode scriptPath,
    quiet (getProjectSearchDir H cwd scriptMode cwdMode scriptPath).
Proof.
  intros cwd scriptMode cwdMode scriptPath.
  unfold getProjectSearchDir, requireResolveNonCached.
  repeat first [ apply installExtensions_quiet
               | apply removeExtensions_quiet
               | quiet_step ].
Qed.

Lemma evalAndExitOnTsError_quiet :
  forall replService module code isPrinted name,
    quiet (evalAndExitOnTsError H replService module code isPrinted name).
Proof.
  intros. unfold evalAndExitOnTsError. repeat quiet_step.
Qed.

Lemma phase4_quiet : forall payload, quiet (phase4 H payload).
Proof.
  intros payload.
  unfold phase4, printVersionInformation, printConfiguration, listenOnStdin,
    setService, createVirtualFileWithModule, createReplVirtualFile,
    createRepl.
  repeat first [ apply evalAndExitOnTsError_quiet | quiet_step ].
Qed.

End BootstrapProperties.

(** ** The dispatcher, step by step *)

(** Case analysis on the innermost condition of a run kept in [Hrun]. *)
Ltac step_in Hrun :=
  match type of Hrun with
  | context [match ?x with _ => _ end] =>
      lazymatch x with
      | context [match _ with _ => _ end] => fail
      | _ => destruct x eqn:?
      end
  end.

Ltac unfold_monad_in Hrun :=
  unfold bind, when, emit, modify, gets, call, lift, ret, throw,
    process_exit, try_catch in Hrun.

Ltac unfold_phase4_in Hrun :=
  unfold createVirtualFileWithModule, createReplVirtualFile, createRepl,
    setService, hostOf, printVersionInformation, printConfiguration,
    listenOnStdin, createBootstrapStateForChildProcess in Hrun.

Section DispatcherProperties.

Context {PreloadedConfig Service Obj : Type}.
Variable H : Host PreloadedConfig Service Obj.

Lemma evaluated_snoc_other :
  forall (t : list (Event PreloadedConfig Service)) e,
    evaluated [e] = [] -> evaluated (t ++ [e]) = evaluated t.
Proof.
  intros t e He. unfold evaluated in *. rewrite flat_map_app, He.
  apply app_nil_r.
Qed.

Lemma evaluated_snoc_evalCode :
  forall (t : list (Event PreloadedConfig Service)) r code,
    evaluated (t ++ [call_evalCode r code]) = evaluated t ++ [(r, code)].
Proof. intros t r code. unfold evaluated. now rewrite flat_map_app. Qed.

Lemma prints_after_here :
  forall (marker : Event PreloadedConfig Service) lines after,
    printed after = lines -> prints_after marker lines (marker :: after).
Proof. intros marker lines after Hafter. now exists [], after. Qed.

Lemma prints_after_later :
  forall (e marker : Event PreloadedConfig Service) lines l,
    printed [e] = [] ->
    prints_after marker lines l ->
    prints_after marker lines (e :: l).
Proof.
  intros e marker lines l He (before & after & -> & Hbefore & Hafter).
  exists (e :: before), after. repeat split; [|exact Hafter].
  change (printed ([e] ++ before) = []). unfold printed in *.
  now rewrite flat_map_app, He, Hbefore.
Qed.

(** Under [executeStdin] the other three modes are off. *)
Lemma executeStdin_alone :
  forall p (payload : BootstrapStateForChild PreloadedConfig),
    executeStdin (phase4_entryPointInfo H p payload) = true ->
    executeEval (phase4_entryPointInfo H p payload) = false
    /\ ToBoolean (executeRepl (phase4_entryPointInfo H p payload)) = false
    /\ executeEntrypoint (phase4_entryPointInfo H p payload) = false.
Proof.
  intros p payload Hstdin.
  unfold phase4_entryPointInfo, getEntryPointInfo in *.
  cbn [executeStdin executeEval executeRepl executeEntrypoint] in *.
  apply andb_prop in Hstdin as [Hstdin Hee].
  apply andb_prop in Hstdin as [Hev Hrepl].
  unfold js_not in Hrepl.
  apply negb_true_iff in Hev, Hrepl, Hee. auto.
Qed.

(** In stdin mode [phase4] evaluates nothing itself: it leaves the two
    listeners behind, with an empty buffer. *)
Lemma phase4_listens_on_stdin :
  forall (payload : BootstrapStateForChild PreloadedConfig)
         (w w' : World PreloadedConfig Service),
    executeStdin (phase4_entryPointInfo H (proc w) payload) = true ->
    phase4 H payload w = (Returned tt, w') ->
    exists v m,
      stdin_listeners w'
      = Some {| buffer := ""; stdinStuff := Some v;
                listener_payload := payload |}
      /\ module v = Some m
      /\ evaluated (trace w') = evaluated (trace w).
Proof.
  intros payload w w' Hstdin Hrun.
  destruct (executeStdin_alone _ _ Hstdin) as (Hev & Hrepl & Hee).
  assert (Hcode : match initialArgv payload with
                  | Some a => ParsedArgv.code a
                  | None => None
                  end = None)
    by (eapply executeStdin_code_absent; exact Hstdin).
  unfold phase4 in Hrun.
  destruct (phase3Result payload) as [p3|] eqn:Hp3; [|discriminate].
  unfold bind at 1 in Hrun. cbn [gets] in Hrun.
  rewrite Hev, Hstdin, Hrepl, Hee in Hrun.
  unfold_phase4_in Hrun. rewrite Hp3, Hcode in Hrun.
  unfold_monad_in Hrun. cbn in Hrun.
  repeat (step_in Hrun; cbn in Hrun; try discriminate).
  all: injection Hrun as <-; do 2 eexists;
    (split; [reflexivity|]); (split; [reflexivity|]);
    cbn [trace with_trace with_proc with_stdin_listeners];
    repeat (rewrite evaluated_snoc_other by reflexivity); reflexivity.
Qed.

(** Whatever [evalCode] does, [evalAndExitOnTsError] hands it the code once. *)
Lemma evalAndExitOnTsError_evaluated :
  forall replService module code isPrinted name
         (w : World PreloadedConfig Service),
    evaluated
      (trace (snd (evalAndExitOnTsError H replService module code isPrinted
                     name w)))
    = evaluated (trace w) ++ [(replService, code)].
Proof.
  intros replService module code isPrinted name w.
  unfold evalAndExitOnTsError, try_catch, bind, when, emit, modify, gets,
    call, ret, throw, process_exit.
  cbn [trace with_trace snd proc].
  destruct (evalCode H replService code) as [result|error|status];
    [destruct isPrinted|destruct (instanceof_TSError error)|];
    cbn [trace with_trace snd proc];
    repeat (rewrite evaluated_snoc_other by reflexivity);
    rewrite evaluated_snoc_evalCode;
    repeat (rewrite evaluated_snoc_other by reflexivity); reflexivity.
Qed.

Lemma concat_chunks_cons :
  forall chunk rest,
    String.concat "" (chunk :: rest)
    = (chunk ++ String.concat "" rest)%string.
Proof.
  intros chunk [|next rest]; cbn; [|reflexivity].
  induction chunk as [|c chunk IH]; cbn; [reflexivity|]. now rewrite <- IH.
Qed.

Lemma append_assoc_chunks :
  forall a b c : string, ((a ++ b) ++ c = a ++ (b ++ c))%string.
Proof.
  induction a as [|ch a IH]; intros b c; cbn; [reflexivity|].
  now rewrite IH.
Qed.

(** Once the listeners are in place, the text evaluated at end-of-stream is
    the buffer followed by the chunks, in order. *)
Lemma stdin_stream_evaluated :
  forall chunks (w : World PreloadedConfig Service) l v m,
    stdin_listeners w = Some l ->
    stdinStuff l = Some v ->
    module v = Some m ->
    evaluated (trace (snd (stdin_stream H chunks w)))
    = evaluated (trace w)
      ++ [(repl v, (buffer l ++ String.concat "" chunks)%string)].
Proof.
  induction chunks as [|chunk rest IH]; intros w l v m Hl Hv Hm.
  - cbn [stdin_stream]. unfold stdin_end, bind at 1. cbn [gets].
    rewrite Hl, Hv, Hm, evalAndExitOnTsError_evaluated. cbn [String.concat].
    replace (buffer l ++ "")%string with (buffer l); [reflexivity|].
    clear. induction (buffer l) as [|c b IH]; cbn; [reflexivity|].
    now rewrite <- IH.
  - cbn [stdin_stream]. unfold bind at 1, stdin_data at 1, modify.
    rewrite Hl.
    erewrite IH; [|reflexivity|exact Hv|exact Hm].
    cbn [buffer trace with_stdin_listeners].
    now rewrite concat_chunks_cons, append_assoc_chunks.
Qed.

(** C10. Under [executeStdin] no inline code was given.  So when [phase4]
    returns in that mode, the listeners it registered hold an empty buffer,
    [phase4] has evaluated nothing, and once standard input has delivered its
    chunks and ended, the one text handed to [evalCode] is the chunks put
    together in order. *)
Theorem stdin_text_is_the_chunks :
  forall (payload : BootstrapStateForChild PreloadedConfig)
         (w : World PreloadedConfig Service),
    executeStdin (phase4_entryPointInfo H (proc w) payload) = true ->
    match initialArgv payload with
    | Some a => ParsedArgv.code a
    | None => None
    end = None
    /\ forall w',
        phase4 H payload w = (Returned tt, w') ->
        exists v m,
          stdin_listeners w'
          = Some {| buffer := ""; stdinStuff := Some v;
                    listener_payload := payload |}
          /\ module v = Some m
          /\ evaluated (trace w') = evaluated (trace w)
          /\ forall chunks,
              evaluated (trace (snd (stdin_stream H chunks w')))
              = evaluated (trace w) ++ [(repl v, String.concat "" chunks)].
Proof.
  intros payload w Hstdin. split.
  - eapply executeStdin_code_absent. exact Hstdin.
  - intros w' Hrun.
    destruct (phase4_listens_on_stdin _ _ _ Hstdin Hrun)
      as (v & m & Hl & Hm & Hquiet).
    exists v, m. repeat split; try assumption.
    intros chunks.
    erewrite stdin_stream_evaluated; [|exact Hl|reflexivity|exact Hm].
    cbn [buffer]. now rewrite Hquiet.
Qed.

End DispatcherProperties.

Section BootstrapTheorems.

Context {PreloadedConfig Service Obj : Type}.
Variable H : Host PreloadedConfig Service Obj.

(** The lines printed for [-vv] and for [-vvv] and beyond. *)
Lemma phase4_prints_version :
  forall (payload : BootstrapStateForChild PreloadedConfig)
         (a : ParsedArgv.t) (p3 : Phase3Result PreloadedConfig)
         (w : World PreloadedConfig Service),
    initialArgv payload = Some a ->
    phase3Result payload = Some p3 ->
    2 <= ParsedArgv.version a ->
    (forall overlay,
        exists service,
          createFromPreloadedConfig H (preloadedConfig p3) overlay
          = Returned service) ->
    exists service overlay added w',
      phase4 H payload w = (Exited 0, w')
      /\ createFromPreloadedConfig H (preloadedConfig p3) overlay
         = Returned service
      /\ trace w' = trace w ++ added
      /\ prints_after
           (call_createFromPreloadedConfig (preloadedConfig p3) overlay)
           (if Nat.eqb (ParsedArgv.version a) 2
            then ["ts-node v" ++ VERSION H;
                  "node " ++ process.version (proc w);
                  "compiler v" ++ ts_version H service]
            else ["ts-node v" ++ VERSION H ++ " "
                    ++ path_dirname H (dirname_ H);
                  "node " ++ process.version (proc w);
                  "compiler v" ++ ts_version H service ++ " "
                    ++ nullish_or (compilerPath H service) ""])%string
           added.
Proof.
  intros payload a p3 w Hargv Hp3 Hversion Hservice.
  unfold phase4. rewrite Hp3. unfold bind at 1. cbn [gets].
  unfold printVersionInformation. rewrite Hargv. cbn [option_map].
  destruct (executeEval (phase4_entryPointInfo H (proc w) payload)),
    (executeStdin (phase4_entryPointInfo H (proc w) payload)),
    (ToBoolean (executeRepl (phase4_entryPointInfo H (proc w) payload))),
    (enableEsmLoader p3).
  all: destruct (ParsedArgv.version a) as [|[|[|n]]]; try lia.
  all: unfold createVirtualFileWithModule, createReplVirtualFile, createRepl,
         setService, hostOf, bind, when, emit, modify, gets, call, ret.
  all: cbn [trace with_trace with_proc proc state repl module 
         evalAwarePartialHost repl_state path nullish_or
    ignoreDiagnosticsThatAreAnnoyingInInteractiveRepl repl_service Nat.eqb Nat.leb].
  all: match goal with
       | |- context [createFromPreloadedConfig H ?c ?o] =>
           destruct (Hservice o) as [service Hs]; rewrite Hs
       end.
  all: cbn [trace with_trace with_proc proc process_exit].
  all: do 4 eexists; split; [reflexivity|]; split; [eassumption|];
     cbn [trace with_trace with_proc proc]; rewrite <- !app_assoc;
     cbn [app]; split; [reflexivity|];
     repeat first [ apply prints_after_here; reflexivity
                  | apply prints_after_later; [reflexivity|] ].
Qed.

(** C9. [phase2] ends the process with status 0 after printing the usage
    text when the help flag is set, and after printing the short version
    string when it is not and the version count is 1.  With a version count
    of 2 or more (and no help flag) [phase2] returns; such a count is handled
    in [phase4], which, once the compiler service has been constructed,
    prints the version lines and ends the process with status 0. *)
Theorem help_and_version_exits :
  (forall (st : BootstrapState PreloadedConfig)
          (w : World PreloadedConfig Service),
      ParsedArgv.help (parseArgvResult st) = true ->
      phase2 H st w
      = (Exited 0, with_trace (trace w ++ [console_log usage_text]) w))
  /\ (forall (st : BootstrapState PreloadedConfig)
             (w : World PreloadedConfig Service),
         ParsedArgv.help (parseArgvResult st) = false ->
         ParsedArgv.version (parseArgvResult st) = 1 ->
         phase2 H st w
         = (Exited 0,
            with_trace (trace w ++ [console_log ("v" ++ VERSION H)]) w))
  /\ (forall (st : BootstrapState PreloadedConfig)
             (w : World PreloadedConfig Service),
         ParsedArgv.help (parseArgvResult st) = false ->
         2 <= ParsedArgv.version (parseArgvResult st) ->
         phase2 H st w
         = (Returned
              {| resolutionCwd :=
                   match ParsedArgv.cwdArg (parseArgvResult st) with
                   | Some dir => path_resolve H (process.cwd (proc w)) [dir]
                   | None => process.cwd (proc w)
                   end |},
            w))
  /\ (forall (payload : BootstrapStateForChild PreloadedConfig)
             (a : ParsedArgv.t) (p3 : Phase3Result PreloadedConfig)
             (w : World PreloadedConfig Service),
         initialArgv payload = Some a ->
         phase3Result payload = Some p3 ->
         2 <= ParsedArgv.version a ->
         (forall overlay,
             exists service,
               createFromPreloadedConfig H (preloadedConfig p3) overlay
               = Returned service) ->
         exists service overlay added w',
           phase4 H payload w = (Exited 0, w')
           /\ createFromPreloadedConfig H (preloadedConfig p3) overlay
              = Returned service
           /\ trace w' = trace w ++ added
           /\ prints_after
                (call_createFromPreloadedConfig (preloadedConfig p3) overlay)
                (if Nat.eqb (ParsedArgv.version a) 2
                 then ["ts-node v" ++ VERSION H;
                       "node " ++ process.version (proc w);
                       "compiler v" ++ ts_version H service]
                 else ["ts-node v" ++ VERSION H ++ " "
                         ++ path_dirname H (dirname_ H);
                       "node " ++ process.version (proc w);
                       "compiler v" ++ ts_version H service ++ " "
                         ++ nullish_or (compilerPath H service) ""])%string
                added).
Proof.
  repeat split.
  - intros st w Hhelp. unfold phase2. rewrite Hhelp. reflexivity.
  - intros st w Hhelp Hversion. unfold phase2. rewrite Hhelp, Hversion.
    reflexivity.
  - intros st w Hhelp Hversion. unfold phase2. rewrite Hhelp.
    destruct (ParsedArgv.version (parseArgvResult st)) as [|[|n]]; try lia.
    reflexivity.
  - apply phase4_prints_version.
Qed.

(** [phase3] invokes [findAndReadConfig] once on its way to returning. *)
Lemma phase3_one_lookup :
  forall (payload : BootstrapStateForChild PreloadedConfig)
         (w w' : World PreloadedConfig Service) p3,
    phase3 H payload w = (Returned p3, w') ->
    config_lookups (trace w') = config_lookups (trace w) + 1.
Proof.
  intros payload w w' p3 Hrun. unfold phase3 in Hrun.
  destruct (initialArgv payload) as [a|]; [|discriminate].
  destruct (initialResolutionCwd payload) as [resolutionCwd|];
    [|discriminate].
  apply bind_Returned_inv in Hrun as (p & w1 & Hp & Hrun).
  apply bind_Returned_inv in Hrun as (dir & w2 & Hdir & Hrun).
  apply bind_Returned_inv in Hrun as (config & w3 & Hconfig & Hrun).
  unfold gets in Hp. injection Hp as <- <-.
  unfold call in Hconfig. injection Hconfig as _ <-.
  unfold ret in Hrun. injection Hrun as _ <-.
  cbn [trace with_trace]. rewrite config_lookups_snoc. cbn.
  pose proof (getProjectSearchDir_quiet H (Some resolutionCwd)
                (ParsedArgv.scriptMode a) (ParsedArgv.cwdMode a)
                (entryPointPath
                   (getEntryPointInfo H (proc w) resolutionCwd
                      (ParsedArgv.code a) (Some (ParsedArgv.interactive a))
                      (ParsedArgv.restArgs a))) w) as Hquiet.
  rewrite Hdir in Hquiet. cbn [snd] in Hquiet. now rewrite Hquiet.
Qed.

(** C4, as the code has it.  [completeBootstrap] runs [phase3] exactly when
    the state it receives has no [phase3Result]: a state that carries one, as
    the continuation state for forked processes does, is handed to [phase4]
    as it is and no configuration lookup is made; a state
    that lacks one gets it from a [phase3] run, with one configuration
    lookup, before [phase4].  When the [--esm] flag is set, [bootstrap] makes
    no configuration lookup itself and hands [callInChildWithEsm] the state
    of the initial process without a [phase3Result], so the lookup is made in
    the child. *)
Theorem completeBootstrap_configuration_lookups :
  (forall st forked : BootstrapStateForChild PreloadedConfig,
      createBootstrapStateForChildProcess st = Returned forked ->
      phase3Result forked <> None)
  /\ (forall (st : BootstrapStateForChild PreloadedConfig)
          (w : World PreloadedConfig Service),
      phase3Result st <> None ->
      completeBootstrap H st w = phase4 H st w
      /\ config_lookups (trace (snd (completeBootstrap H st w)))
         = config_lookups (trace w))
  /\ (forall (st : BootstrapStateForChild PreloadedConfig)
             (w w1 : World PreloadedConfig Service) p3,
         phase3Result st = None ->
         phase3 H st w = (Returned p3, w1) ->
         completeBootstrap H st w
         = phase4 H {| restArgs := restArgs st;
                       phase3Result := Some p3;
                       initialArgv := initialArgv st;
                       initialResolutionCwd := initialResolutionCwd st |} w1
         /\ config_lookups (trace (snd (completeBootstrap H st w)))
            = config_lookups (trace w) + 1)
  /\ (forall (st0 : BootstrapState PreloadedConfig)
             (w0 : World PreloadedConfig Service),
         truthy (ParsedArgv.esm (parseArgvResult st0)) = true ->
         ParsedArgv.help (parseArgvResult st0) = false ->
         ParsedArgv.version (parseArgvResult st0) <> 1 ->
         let handed :=
           {| restArgs := ParsedArgv.restArgs (parseArgvResult st0);
              phase3Result := None;
              initialArgv := Some (parseArgvResult st0);
              initialResolutionCwd :=
                Some match ParsedArgv.cwdArg (parseArgvResult st0) with
                     | Some dir =>
                         path_resolve H (process.cwd (proc w0)) [dir]
                     | None => process.cwd (proc w0)
                     end |} in
         bootstrap H st0 w0
         = (Returned tt,
            with_trace
              (trace w0
                 ++ [callInChildWithEsm handed (process.cwd (proc w0))]) w0)
         /\ config_lookups (trace (snd (bootstrap H st0 w0)))
            = config_lookups (trace w0)).
Proof.
  split; [|split; [|split]].
  - intros st forked Hbuilt. unfold createBootstrapStateForChildProcess in Hbuilt.
    destruct (phase3Result st); [|discriminate].
    injection Hbuilt as <-. discriminate.
  - intros st w Hcarried.
    assert (Heq : completeBootstrap H st w = phase4 H st w).
    { unfold completeBootstrap.
      destruct (phase3Result st); [reflexivity|congruence]. }
    split; [exact Heq|]. rewrite Heq. apply phase4_quiet.
  - intros st w w1 p3 Hnone Hrun.
    assert (Heq : completeBootstrap H st w
                  = phase4 H {| restArgs := restArgs st;
                                phase3Result := Some p3;
                                initialArgv := initialArgv st;
                                initialResolutionCwd :=
                                  initialResolutionCwd st |} w1).
    { unfold completeBootstrap. rewrite Hnone.
      unfold bind at 1, bind at 1. rewrite Hrun. reflexivity. }
    split; [exact Heq|]. rewrite Heq, phase4_quiet.
    eapply phase3_one_lookup. exact Hrun.
  - intros st0 w0 Hesm Hhelp Hversion handed.
    assert (Heq : bootstrap H st0 w0
                  = (Returned tt,
                     with_trace
                       (trace w0
                          ++ [callInChildWithEsm handed
                                (process.cwd (proc w0))]) w0)).
    { unfold bootstrap, phase2. rewrite Hhelp, Hesm.
      apply Nat.eqb_neq in Hversion. rewrite Hversion. reflexivity. }
    split; [exact Heq|]. rewrite Heq. cbn [snd trace with_trace].
    rewrite config_lookups_snoc. apply Nat.add_0_r.
Qed.

(** C7, as the code has it.  What the forked child computes in [phase4] from
    the continuation state it reads back is the entry-point information of
    the same rest arguments with no inline code, no interactive flag, and
    the child's own current directory as resolution directory.  It is the
    information the non-forked run computes with its inline code left out
    whenever that run has rest arguments or no interactive flag, and resolves
    against that same directory. *)
Theorem forked_entry_point_info :
  forall {Wire : Type}
         (encode : BootstrapStateForChild PreloadedConfig -> Wire)
         (decode : Wire -> option (BootstrapStateForChild PreloadedConfig)),
    marshals encode decode ->
    forall (p : process.t)
           (payload forked child : BootstrapStateForChild PreloadedConfig),
      createBootstrapStateForChildProcess payload = Returned forked ->
      decode (encode forked) = Some child ->
      phase4_entryPointInfo H p child
      = getEntryPointInfo H p (process.cwd p) None None (restArgs payload)
      /\ (restArgs payload <> []
          \/ option_map ParsedArgv.interactive (initialArgv payload)
             <> Some true ->
          phase4_resolutionCwd p payload = process.cwd p ->
          phase4_entryPointInfo H p child
          = phase4_entryPointInfo H p (state_without_code payload)).
Proof.
  intros Wire encode decode Hmarshal p payload forked child Hbuilt Hread.
  assert (Hforked : restArgs forked = restArgs payload
                    /\ initialArgv forked = None
                    /\ initialResolutionCwd forked = None).
  { unfold createBootstrapStateForChildProcess in Hbuilt.
    destruct (phase3Result payload); [|discriminate].
    injection Hbuilt as <-. now repeat split. }
  destruct Hforked as (Hrest & Hargv & Hcwd).
  destruct (Hmarshal forked) as (child' & Hread' & Hrest' & Hargv' & Hcwd').
  rewrite Hread in Hread'. injection Hread' as <-.
  assert (Hchild : phase4_entryPointInfo H p child
                   = getEntryPointInfo H p (process.cwd p) None None
                       (restArgs payload)).
  { unfold phase4_entryPointInfo, phase4_resolutionCwd.
    rewrite (Hargv' Hargv), (Hcwd' Hcwd), Hrest', Hrest. reflexivity. }
  split; [exact Hchild|].
  intros Hsame Hdir. rewrite Hchild.
  unfold phase4_entryPointInfo.
  change (phase4_resolutionCwd p (state_without_code payload))
    with (phase4_resolutionCwd p payload).
  rewrite Hdir. cbn [initialArgv restArgs state_without_code].
  assert (Hcode : match option_map without_code (initialArgv payload) with
                  | Some a => ParsedArgv.code a
                  | None => None
                  end = None)
    by (destruct (initialArgv payload); reflexivity).
  rewrite Hcode.
  assert (Hinteractive :
            option_map ParsedArgv.interactive
              (option_map without_code (initialArgv payload))
            = option_map ParsedArgv.interactive (initialArgv payload))
    by (destruct (initialArgv payload); reflexivity).
  rewrite Hinteractive.
  unfold getEntryPointInfo.
  destruct (restArgs payload) as [|script others],
    (option_map ParsedArgv.interactive (initialArgv payload)) as [[|]|];
    try reflexivity.
  destruct Hsame as [Hsame|Hsame]; congruence.
Qed.

End BootstrapTheorems.

(** * The properties on concrete command lines *)

Lemma getEntryPointInfo_modes_witness :
  let info :=
    getEntryPointInfo (Demo.host None) (Demo.process_of (Some false))
      "/home/user" (Some "1+1") (Some true) ["a.ts"] in
  executeEval info = false
  /\ executeEntrypoint info = true
  /\ executeRepl info = JsBool false.
Proof.
  destruct (getEntryPointInfo_modes (Demo.host None)
              (Demo.process_of (Some false)) "/home/user" (Some "1+1")
              (Some true) ["a.ts"])
    as (_ & _ & _ & Hrepl & _ & _ & _ & Hentry).
  destruct (Hentry eq_refl eq_refl eq_refl) as [Heval Hentrypoint].
  split; [exact Heval|]. split; [exact Hentrypoint|].
  exact (Hrepl true false eq_refl eq_refl).
Defined.

Lemma entry_mode_exclusive_witness :
  let info :=
    getEntryPointInfo (Demo.host None) (Demo.process_of None) "/home/user"
      None (Some false) [] in
  executeEval info = false
  /\ count_true [executeEntrypoint info; ToBoolean (executeRepl info);
                 executeStdin info] = 1.
Proof.
  split; [reflexivity|].
  apply (entry_mode_exclusive (Demo.host None) (Demo.process_of None)
           "/home/user" None (Some false) []).
  reflexivity.
Defined.

Lemma phase3_usage_errors_witness :
  phase3 (Demo.host None) (Demo.initial Demo.both_modes "/home/user")
    (Demo.world_of None)
  = (Threw (TypeError "--cwd-mode cannot be combined with --script-mode"),
     Demo.world_of None)
  /\ phase3 (Demo.host None)
       (Demo.initial Demo.script_mode_alone "/home/user")
       (Demo.world_of None)
     = (Threw (TypeError
          "--script-mode must be used with a script name, e.g. `ts-node --script-mode <script.ts>`"),
        Demo.world_of None).
Proof.
  split.
  - destruct (phase3_usage_errors (Demo.host None)
                (Demo.initial Demo.both_modes "/home/user") Demo.both_modes
                "/home/user" (Demo.world_of None) eq_refl eq_refl eq_refl)
      as (Hboth & _ & _).
    exact (Hboth eq_refl).
  - destruct (phase3_usage_errors (Demo.host None)
                (Demo.initial Demo.script_mode_alone "/home/user")
                Demo.script_mode_alone "/home/user" (Demo.world_of None)
                eq_refl eq_refl eq_refl)
      as (_ & _ & Hempty).
    exact (Hempty eq_refl).
Defined.

Lemma createBootstrapStateForChildProcess_fields_witness :
  let forked :=
    {| restArgs := [];
       phase3Result := Some {| preloadedConfig := (None : Demo.Config);
                               enableEsmLoader := true |};
       initialArgv := None;
       initialResolutionCwd := None |} in
  ownKeys forked = ["restArgs"; "phase3Result"]
  /\ initialArgv forked = None.
Proof.
  destruct (createBootstrapStateForChildProcess_fields
              (Demo.resolved Demo.esm_eval "/home/user" None true))
    as (Hfields & _ & _).
  destruct (Hfields _ eq_refl) as (Hkeys & _ & _ & _ & Hargv & _).
  split; [exact Hkeys|exact Hargv].
Defined.

Lemma phase3_enableEsmLoader_witness :
  exists a options before,
    initialArgv (Demo.initial Demo.run_script "/home/user") = Some a
    /\ trace (snd (phase3 (Demo.host (Some true))
                     (Demo.initial Demo.run_script "/home/user")
                     (Demo.world_of None)))
       = before ++ [call_findAndReadConfig options]
    /\ findAndReadConfig (Demo.host (Some true)) options
       = Returned (Some true)
    /\ true
       = truthy (ParsedArgv.esm a)
         || truthy (options_esm (Demo.host (Some true)) (Some true)).
Proof.
  exact (phase3_enableEsmLoader (Demo.host (Some true))
           (Demo.initial Demo.run_script "/home/user") (Demo.world_of None)
           (snd (phase3 (Demo.host (Some true))
                   (Demo.initial Demo.run_script "/home/user")
                   (Demo.world_of None)))
           {| preloadedConfig := Some true; enableEsmLoader := true |}
           eq_refl).
Defined.

Lemma evalAndExitOnTsError_outcomes_witness :
  fst (evalAndExitOnTsError (Demo.host None) Demo.eval_repl Demo.eval_module
         "const n: number = 'a'" true for_eval (Demo.world_of None))
  = Exited 1
  /\ evalAndExitOnTsError (Demo.host None) Demo.eval_repl Demo.eval_module
       "throw new Error('x')" true for_eval (Demo.world_of None)
     = (Threw (OtherThrown "Error: x"),
        with_trace
          [call_setupContext Demo.eval_module for_eval;
           call_evalCode Demo.eval_repl "throw new Error('x')"]
          (Demo.world_of None))
  /\ printed
       (trace (snd (evalAndExitOnTsError (Demo.host None) Demo.eval_repl
                      Demo.eval_module "1+1" true for_eval
                      (Demo.world_of None))))
     = ["2"].
Proof.
  split; [|split].
  - destruct (evalAndExitOnTsError_outcomes (Demo.host None) Demo.eval_repl
                Demo.eval_module "const n: number = 'a'" true for_eval
                (Demo.world_of None)) as (Hts & _ & _).
    rewrite (Hts _ eq_refl). reflexivity.
  - destruct (evalAndExitOnTsError_outcomes (Demo.host None) Demo.eval_repl
                Demo.eval_module "throw new Error('x')" true for_eval
                (Demo.world_of None)) as (_ & Hother & _).
    exact (Hother _ eq_refl eq_refl).
  - destruct (evalAndExitOnTsError_outcomes (Demo.host None) Demo.eval_repl
                Demo.eval_module "1+1" true for_eval (Demo.world_of None))
      as (_ & _ & Hok).
    rewrite (Hok _ eq_refl). reflexivity.
Defined.

Lemma help_and_version_exits_witness :
  phase2 (Demo.host None) (Demo.start (Demo.version_flags 1))
    (Demo.world_of None)
  = (Exited 0, with_trace [console_log "v10.9.1"] (Demo.world_of None))
  /\ fst (phase2 (Demo.host None) (Demo.start (Demo.version_flags 2))
            (Demo.world_of None))
     = Returned {| resolutionCwd := "/home/user" |}
  /\ exists w',
      phase4 (Demo.host None)
        (Demo.resolved (Demo.version_flags 2) "/home/user" None false)
        (Demo.world_of None)
      = (Exited 0, w').
Proof.
  destruct (help_and_version_exits (Demo.host None))
    as (_ & Hone & Htwo & Hmore).
  split; [|split].
  - exact (Hone (Demo.start (Demo.version_flags 1)) (Demo.world_of None)
             eq_refl eq_refl).
  - rewrite (Htwo (Demo.start (Demo.version_flags 2)) (Demo.world_of None)
               eq_refl (le_n 2)).
    reflexivity.
  - destruct (Hmore
                (Demo.resolved (Demo.version_flags 2) "/home/user" None false)
                (Demo.version_flags 2)
                {| preloadedConfig := None; enableEsmLoader := false |}
                (Demo.world_of None) eq_refl eq_refl (le_n 2)
                (fun overlay => ex_intro _ "4.8.4" eq_refl))
      as (service & overlay & added & w' & Hexit & _).
    exists w'. exact Hexit.
Defined.

Lemma stdin_text_is_the_chunks_witness :
  exists r,
    evaluated
      (trace
         (snd (stdin_stream (Demo.host None) ["1"; "+1"]
                 (snd (phase4 (Demo.host None)
                         (Demo.resolved Demo.piped "/home/user" None false)
                         (Demo.world_of None))))))
    = [(r, "1+1")].
Proof.
  destruct (stdin_text_is_the_chunks (Demo.host None)
              (Demo.resolved Demo.piped "/home/user" None false)
              (Demo.world_of None) eq_refl) as [_ Hlisteners].
  destruct (Hlisteners _ eq_refl) as (v & m & _ & _ & _ & Hstream).
  exists (repl v). exact (Hstream ["1"; "+1"]).
Defined.

Lemma completeBootstrap_configuration_lookups_witness :
  config_lookups
    (trace (snd (bootstrap (Demo.host None) (Demo.start Demo.esm_eval)
                   (Demo.world_of None))))
  = 0
  /\ config_lookups
       (trace (snd (completeBootstrap (Demo.host None)
                      (Demo.initial Demo.esm_eval "/home/user")
                      (Demo.world_of None))))
     = 1
  /\ config_lookups
       (trace (snd (completeBootstrap (Demo.host None)
                      (Demo.resolved Demo.run_script "/home/user" None false)
                      (Demo.world_of None))))
     = 0.
Proof.
  destruct (completeBootstrap_configuration_lookups (Demo.host None))
    as (_ & Hcarried & Hlacking & Hflag).
  split; [|split].
  - exact (proj2 (Hflag (Demo.start Demo.esm_eval) (Demo.world_of None)
                    eq_refl eq_refl (fun E => O_S 0 E))).
  - exact (proj2 (Hlacking (Demo.initial Demo.esm_eval "/home/user")
                    (Demo.world_of None) _ _ eq_refl eq_refl)).
  - refine (proj2 (Hcarried
                     (Demo.resolved Demo.run_script "/home/user" None false)
                     (Demo.world_of None) _)).
    discriminate.
Defined.

(** The state [bootstrap] hands to the child under [--esm] carries no
    [phase3Result], and the child then looks the configuration up. *)
Lemma esm_child_looks_configuration_up :
  ~ child_reuses_configuration (Demo.host None) (Demo.start Demo.esm_eval)
      (Demo.world_of None) (Demo.world_of None).
Proof.
  intros Hclaim.
  destruct (Hclaim (Demo.initial Demo.esm_eval "/home/user")
              (or_introl eq_refl)) as [Hcarried _].
  apply Hcarried. reflexivity.
Qed.

Lemma forked_entry_point_info_witness :
  phase4_entryPointInfo (Demo.host None) (Demo.process_of None)
    {| restArgs := ["a.ts"; "x"];
       phase3Result := Some {| preloadedConfig := (None : Demo.Config);
                               enableEsmLoader := false |};
       initialArgv := None;
       initialResolutionCwd := None |}
  = phase4_entryPointInfo (Demo.host None) (Demo.process_of None)
      (state_without_code
         (Demo.resolved Demo.run_script "/home/user" None false)).
Proof.
  refine (proj2 (forked_entry_point_info (Demo.host None)
                   (fun st => st) (fun st => Some st) _
                   (Demo.process_of None)
                   (Demo.resolved Demo.run_script "/home/user" None false)
                   _ _ eq_refl eq_refl) _ eq_refl).
  - intros st. exists st. repeat split; auto.
  - left. discriminate.
Defined.

(** With [-i] and no rest arguments the forked child reads standard input
    where the non-forked run opens the REPL; with [--cwd] the forked child
    resolves the script against its own current directory. *)
Lemma forked_entry_point_differs :
  ~ fork_reproduces_entry_point (Demo.host None) (fun st => st)
      (fun st => Some st) (Demo.process_of None)
      (Demo.resolved Demo.interactive_only "/home/user" None false)
  /\ ~ fork_reproduces_entry_point (Demo.host None) (fun st => st)
        (fun st => Some st) (Demo.process_of None)
        (Demo.resolved Demo.other_directory "/srv/app" None false).
Proof.
  split; intros Hclaim;
    specialize (Hclaim _ _ eq_refl eq_refl); discriminate Hclaim.
Qed.

(** * Further properties of the pipeline *)

Section EntryPointModes.

Context {PreloadedConfig Service Obj : Type}.
Variable H : Host PreloadedConfig Service Obj.

(** X1. Some mode is always selected, and never more than two: two modes are
    selected exactly when inline code comes with the interactive flag and no
    rest argument, and they are then the evaluation and the REPL. *)
Theorem entry_modes_one_or_two :
  forall (p : process.t) (resolutionCwd : string) (code : option string)
         (interactive : option bool) (rest : list string),
    let info := getEntryPointInfo H p resolutionCwd code interactive rest in
    let modes := [executeEval info; executeEntrypoint info;
                  ToBoolean (executeRepl info); executeStdin info] in
    (count_true modes = 1 \/ count_true modes = 2)
    /\ (count_true modes = 2
        <-> not_nullish code = true /\ truthy interactive = true
            /\ rest = [])
    /\ (count_true modes = 2 ->
        executeEval info = true /\ ToBoolean (executeRepl info) = true).
Proof.
  intros p resolutionCwd code interactive rest info modes.
  subst modes info. unfold getEntryPointInfo.
  cbn [executeEval executeEntrypoint executeRepl executeStdin].
  destruct code as [c|], interactive as [[|]|], rest as [|script others],
    (process.stdin_isTTY p) as [[|]|];
    cbn; repeat split; intros;
    repeat match goal with
           | E : _ /\ _ |- _ => destruct E
           end; auto; try discriminate.
Qed.

(** X2. An entry-point path is produced exactly when the entry point is the
    selected mode, and then no other mode is: [executeEval] and
    [executeStdin] are false and [executeRepl] is the boolean [false]. *)
Theorem entry_point_mode_stands_alone :
  forall (p : process.t) (resolutionCwd : string) (code : option string)
         (interactive : option bool) (rest : list string),
    let info := getEntryPointInfo H p resolutionCwd code interactive rest in
    (entryPointPath info <> None <-> executeEntrypoint info = true)
    /\ (executeEntrypoint info = true ->
        executeEval info = false
        /\ executeRepl info = JsBool false
        /\ executeStdin info = false).
Proof.
  intros p resolutionCwd code interactive rest info.
  subst info. unfold getEntryPointInfo.
  cbn [executeEval executeEntrypoint executeRepl executeStdin
       entryPointPath].
  destruct code as [c|], interactive as [[|]|], rest as [|script others],
    (process.stdin_isTTY p) as [[|]|];
    cbn; repeat split; intros; try congruence; try discriminate.
Qed.

(** X3. [phase2] returns exactly when the help flag is off and the version
    count is not 1, and then it has printed nothing and changed nothing; it
    never throws, and when it ends the process the status is 0. *)
Theorem phase2_returns_or_exits_cleanly :
  forall (st : BootstrapState PreloadedConfig)
         (w : World PreloadedConfig Service),
    ((exists r, phase2 H st w = (Returned r, w))
     <-> ParsedArgv.help (parseArgvResult st) = false
         /\ ParsedArgv.version (parseArgvResult st) <> 1)
    /\ (forall r w', phase2 H st w = (Returned r, w') -> w' = w)
    /\ (forall e, fst (phase2 H st w) <> Threw e)
    /\ (forall status, fst (phase2 H st w) = Exited status -> status = 0%Z).
Proof.
  intros st w.
  unfold phase2, not, bind, when, gets, ret, emit, modify, process_exit.
  destruct (ParsedArgv.help (parseArgvResult st));
    [|destruct (Nat.eqb_spec (ParsedArgv.version (parseArgvResult st)) 1)
        as [Hv|Hv]];
    cbn; repeat split; intros;
    repeat match goal with
           | E : exists _, _ |- _ => destruct E
           | E : _ /\ _ |- _ => destruct E
           end;
    try discriminate; try congruence; eauto.
Qed.

(** X4. Building the continuation state from a continuation state gives that
    state back: a fork of a forked child is handed what its parent was. *)
Theorem createBootstrapStateForChildProcess_idempotent :
  forall st forked : BootstrapStateForChild PreloadedConfig,
    createBootstrapStateForChildProcess st = Returned forked ->
    createBootstrapStateForChildProcess forked = Returned forked.
Proof.
  intros st forked Hbuilt. unfold createBootstrapStateForChildProcess in *.
  destruct (phase3Result st) as [[config esmLoader]|]; [|discriminate].
  injection Hbuilt as <-. reflexivity.
Qed.

End EntryPointModes.

(** ** Observations that a computation keeps *)

Section Keeps.

Context {PreloadedConfig Service : Type}.

Lemma keeps_ret :
  forall {X A : Type} (obs : World PreloadedConfig Service -> X) (a : A),
    keeps obs (ret a).
Proof. intros X A obs a w. reflexivity. Qed.

Lemma keeps_throw :
  forall {X A : Type} (obs : World PreloadedConfig Service -> X) e,
    keeps obs (throw e : JS PreloadedConfig Service A).
Proof. intros X A obs e w. reflexivity. Qed.

Lemma keeps_process_exit :
  forall {X A : Type} (obs : World PreloadedConfig Service -> X) status,
    keeps obs (process_exit status : JS PreloadedConfig Service A).
Proof. intros X A obs status w. reflexivity. Qed.

Lemma keeps_lift :
  forall {X A : Type} (obs : World PreloadedConfig Service -> X)
         (o : Outcome A),
    keeps obs (lift o).
Proof. intros X A obs o w. reflexivity. Qed.

Lemma keeps_gets :
  forall {X A : Type} (obs : World PreloadedConfig Service -> X)
         (f : World PreloadedConfig Service -> A),
    keeps obs (gets f).
Proof. intros X A obs f w. reflexivity. Qed.

Lemma keeps_modify :
  forall {X : Type} (obs : World PreloadedConfig Service -> X) f,
    (forall w, obs (f w) = obs w) -> keeps obs (modify f).
Proof. intros X obs f Hf w. apply Hf. Qed.

Lemma keeps_emit :
  forall {X : Type} (obs : World PreloadedConfig Service -> X) e,
    (forall w, obs (with_trace (trace w ++ [e]) w) = obs w) ->
    keeps obs (emit e).
Proof. intros X obs e He w. apply He. Qed.

Lemma keeps_call :
  forall {X A : Type} (obs : World PreloadedConfig Service -> X) e
         (o : Outcome A),
    (forall w, obs (with_trace (trace w ++ [e]) w) = obs w) ->
    keeps obs (call e o).
Proof. intros X A obs e o He w. apply He. Qed.

Lemma keeps_bind :
  forall {X A B : Type} (obs : World PreloadedConfig Service -> X)
         (m : JS PreloadedConfig Service A)
         (f : A -> JS PreloadedConfig Service B),
    keeps obs m -> (forall a, keeps obs (f a)) -> keeps obs (bind m f).
Proof.
  intros X A B obs m f Hm Hf w. unfold bind. specialize (Hm w).
  destruct (m w) as [[a|e|status] w1]; cbn in *; try exact Hm.
  now rewrite Hf.
Qed.

Lemma keeps_when :
  forall {X : Type} (obs : World PreloadedConfig Service -> X) (b : bool)
         (m : JS PreloadedConfig Service unit),
    keeps obs m -> keeps obs (when b m).
Proof. intros X obs [|] m Hm; [exact Hm|apply keeps_ret]. Qed.

Lemma keeps_try_catch :
  forall {X A : Type} (obs : World PreloadedConfig Service -> X)
         (m : JS PreloadedConfig Service A) handler,
    keeps obs m -> (forall e, keeps obs (handler e)) ->
    keeps obs (try_catch m handler).
Proof.
  intros X A obs m handler Hm Hh w. unfold try_catch. specialize (Hm w).
  destruct (m w) as [[a|e|status] w1]; cbn in *; try exact Hm.
  now rewrite Hh.
Qed.

Lemma keeps_try_finally :
  forall {X A : Type} (obs : World PreloadedConfig Service -> X)
         (m : JS PreloadedConfig Service A) cleanup,
    keeps obs m -> keeps obs cleanup -> keeps obs (try_finally m cleanup).
Proof.
  intros X A obs m cleanup Hm Hc w. unfold try_finally. specialize (Hm w).
  destruct (m w) as [[a|e|status] w1]; cbn in *; try exact Hm;
    specialize (Hc w1);
    destruct (cleanup w1) as [[[]|e'|status'] w2]; cbn in *; congruence.
Qed.

Lemma events_where_snoc :
  forall (f : Event PreloadedConfig Service -> bool) e w,
    f e = false ->
    events_where f (with_trace (trace w ++ [e]) w) = events_where f w.
Proof.
  intros f e w He. unfold events_where. cbn [trace with_trace].
  rewrite filter_app. cbn. rewrite He. apply app_nil_r.
Qed.

End Keeps.

Ltac keeps_side :=
  intro; first [ reflexivity | apply events_where_snoc; reflexivity ].

Ltac keeps_step :=
  match goal with
  | |- keeps _ (bind _ _) => apply keeps_bind; [|intro]
  | |- keeps _ (ret _) => apply keeps_ret
  | |- keeps _ (throw _) => apply keeps_throw
  | |- keeps _ (process_exit _) => apply keeps_process_exit
  | |- keeps _ (lift _) => apply keeps_lift
  | |- keeps _ (gets _) => apply keeps_gets
  | |- keeps _ (modify _) => apply keeps_modify; keeps_side
  | |- keeps _ (emit _) => apply keeps_emit; keeps_side
  | |- keeps _ (call _ _) => apply keeps_call; keeps_side
  | |- keeps _ (when _ _) => apply keeps_when
  | |- keeps _ (try_catch _ _) => apply keeps_try_catch; [|intro]
  | |- keeps _ (try_finally _ _) => apply keeps_try_finally
  | |- keeps _ (match ?x with _ => _ end) => destruct x
  end.

Section ProjectSearchDir.

Context {PreloadedConfig Service Obj : Type}.
Variable H : Host PreloadedConfig Service Obj.

Lemma hasOwnProperty_app :
  forall l1 l2 e,
    hasOwnProperty (l1 ++ l2) e = hasOwnProperty l1 e || hasOwnProperty l2 e.
Proof. intros l1 l2 e. unfold hasOwnProperty. apply existsb_app. Qed.

Lemma hasOwnProperty_In :
  forall l e, hasOwnProperty l e = true <-> In e l.
Proof.
  intros l e. unfold hasOwnProperty. rewrite existsb_exists. split.
  - intros (x & Hin & Heq). apply String.eqb_eq in Heq. now subst.
  - intros Hin. exists e. split; [exact Hin|apply String.eqb_refl].
Qed.

(** The loop of lines 784-789 registers what is missing, and only that. *)
Lemma installExtensions_spec :
  forall exts acc (w : World PreloadedConfig Service),
    exists added,
      installExtensions exts acc w
      = (Returned (acc ++ added),
         with_require_extensions (require_extensions w ++ added) w)
      /\ (forall e, In e added ->
                    hasOwnProperty (require_extensions w) e = false)
      /\ (forall e, In e exts ->
                    hasOwnProperty (require_extensions w ++ added) e = true).
Proof.
  induction exts as [|ext rest IH]; intros acc w.
  - exists []. rewrite !app_nil_r. split; [|split].
    + destruct w; reflexivity.
    + intros e [].
    + intros e [].
  - cbn [installExtensions]. unfold bind at 1. cbn [gets].
    destruct (hasOwnProperty (require_extensions w) ext) eqn:Hown.
    + destruct (IH acc w) as (added & Hrun & Hfresh & Hall).
      exists added. split; [exact Hrun|]. split; [exact Hfresh|].
      intros e [<-|Hin]; [|now apply Hall].
      rewrite hasOwnProperty_app, Hown. reflexivity.
    + unfold bind at 1, modify at 1.
      destruct (IH (acc ++ [ext])
                  (with_require_extensions (require_extensions w ++ [ext]) w))
        as (added & Hrun & Hfresh & Hall).
      cbn [require_extensions with_require_extensions] in Hrun, Hfresh, Hall.
      exists (ext :: added). rewrite Hrun, <- !app_assoc. cbn [app].
      split; [reflexivity|]. split.
      * intros e [<-|Hin]; [exact Hown|].
        specialize (Hfresh e Hin). rewrite hasOwnProperty_app in Hfresh.
        now apply orb_false_iff in Hfresh.
      * intros e [<-|Hin].
        -- rewrite hasOwnProperty_app. cbn. rewrite String.eqb_refl.
           now rewrite orb_true_r.
        -- specialize (Hall e Hin). now rewrite <- app_assoc in Hall.
Qed.

(** The loop of lines 793-795 removes exactly the given extensions. *)
Lemma removeExtensions_spec :
  forall installed (w : World PreloadedConfig Service),
    removeExtensions installed w
    = (Returned tt,
       with_require_extensions
         (filter (fun e => negb (hasOwnProperty installed e))
                 (require_extensions w)) w).
Proof.
  induction installed as [|ext rest IH]; intros w.
  - assert (Hid : filter (fun e => negb (hasOwnProperty [] e))
                    (require_extensions w) = require_extensions w).
    { induction (require_extensions w) as [|x l IHl]; cbn; [reflexivity|].
      f_equal. exact IHl. }
    rewrite Hid. destruct w; reflexivity.
  - cbn [removeExtensions]. unfold bind at 1, modify at 1. rewrite IH.
    cbn [require_extensions with_require_extensions]. f_equal.
    assert (Hnested :
              filter (fun e => negb (hasOwnProperty rest e))
                (filter (fun e => negb (String.eqb e ext))
                        (require_extensions w))
              = filter (fun e => negb (hasOwnProperty (ext :: rest) e))
                  (require_extensions w)).
    { induction (require_extensions w) as [|x l IHl]; [reflexivity|].
      cbn [filter hasOwnProperty existsb].
      destruct (String.eqb x ext); cbn [negb orb]; [exact IHl|].
      cbn [filter]. fold (hasOwnProperty rest x).
      destruct (hasOwnProperty rest x); cbn [negb]; [exact IHl|].
      now rewrite IHl. }
    rewrite Hnested. destruct w; reflexivity.
Qed.

Lemma filter_registered_back :
  forall registered added,
    (forall e, In e added -> hasOwnProperty registered e = false) ->
    filter (fun e => negb (hasOwnProperty added e)) (registered ++ added)
    = registered.
Proof.
  intros registered added Hfresh. rewrite filter_app.
  replace (filter _ added) with (@nil string).
  - rewrite app_nil_r. apply forallb_filter_id. apply forallb_forall.
    intros e Hin. apply negb_true_iff.
    destruct (hasOwnProperty added e) eqn:Hadded; [|reflexivity].
    apply hasOwnProperty_In in Hadded. specialize (Hfresh e Hadded).
    apply hasOwnProperty_In in Hin. congruence.
  - symmetry. induction added as [|x l IHl]; [reflexivity|].
    cbn. rewrite String.eqb_refl. cbn.
    assert (Hnone : forall l0,
               (forall e, In e l0 -> hasOwnProperty (x :: l) e = true) ->
               filter (fun e => negb (hasOwnProperty (x :: l) e)) l0 = []).
    { induction l0 as [|y l0 IH0]; intros Hall; [reflexivity|].
      cbn [filter]. rewrite (Hall y (or_introl eq_refl)). cbn.
      apply IH0. intros e He. apply Hall. now right. }
    apply Hnone. intros e He. apply hasOwnProperty_In. now right.
Qed.

Lemma requireResolveNonCached_keeps_extensions :
  forall script,
    keeps (require_extensions (PreloadedConfig := PreloadedConfig)
             (Service := Service))
          (requireResolveNonCached H script).
Proof.
  intros script. unfold requireResolveNonCached.
  destruct (path_parse H script) as [dir base]. repeat keeps_step.
Qed.

(** X5. However [getProjectSearchDir] completes, by a return or by a throw,
    the keys of [require.extensions] are what they were before the call: the
    loaders registered for the resolution are removed again. *)
Theorem getProjectSearchDir_restores_extensions :
  forall (cwd : option string) (scriptMode cwdMode : option bool)
         (scriptPath : option string) (w w' : World PreloadedConfig Service)
         (completion : Outcome (option string)),
    getProjectSearchDir H cwd scriptMode cwdMode scriptPath w
    = (completion, w') ->
    (forall status, completion <> Exited status) ->
    require_extensions w' = require_extensions w.
Proof.
  intros cwd scriptMode cwdMode scriptPath w w' completion Hrun Halive.
  unfold getProjectSearchDir in Hrun.
  destruct (truthy scriptMode && truthy cwdMode);
    [injection Hrun as _ <-; reflexivity|].
  destruct (truthy scriptMode && negb (truthy_str scriptPath));
    [injection Hrun as _ <-; reflexivity|].
  destruct (if is_true_strict scriptMode then true
            else if is_true_strict cwdMode then false
                 else truthy_str scriptPath);
    [|injection Hrun as _ <-; reflexivity].
  unfold bind at 1 in Hrun.
  destruct (installExtensions_spec [".js"; ".jsx"; ".ts"; ".tsx"] [] w)
    as (added & Hinstall & Hfresh & _).
  rewrite Hinstall in Hrun. cbn [app] in Hrun.
  unfold try_finally in Hrun.
  match type of Hrun with
  | context [match ?body ?w1 with _ => _ end] =>
      assert (Hkept : require_extensions (snd (body w1))
                      = require_extensions w1)
        by (destruct scriptPath;
            [apply keeps_bind;
             [apply requireResolveNonCached_keeps_extensions
             |intro; apply keeps_ret]
            |apply keeps_throw]);
      destruct (body w1) as [[dir|e|status] w2]
  end;
    cbn [snd require_extensions with_require_extensions] in Hkept.
  - rewrite removeExtensions_spec in Hrun. injection Hrun as _ <-.
    cbn [require_extensions with_require_extensions]. rewrite Hkept.
    now apply filter_registered_back.
  - rewrite removeExtensions_spec in Hrun. injection Hrun as _ <-.
    cbn [require_extensions with_require_extensions]. rewrite Hkept.
    now apply filter_registered_back.
  - injection Hrun as <- _. now destruct (Halive status).
Qed.

(** X6. Without the script-mode flag, [getProjectSearchDir] answers with the
    given directory, resolves nothing and changes nothing, when the cwd-mode
    flag is set or no script path is given. *)
Theorem getProjectSearchDir_cwd_mode :
  forall (cwd : option string) (scriptMode cwdMode : option bool)
         (scriptPath : option string) (w : World PreloadedConfig Service),
    truthy scriptMode = false ->
    cwdMode = Some true \/ truthy_str scriptPath = false ->
    getProjectSearchDir H cwd scriptMode cwdMode scriptPath w
    = (Returned cwd, w).
Proof.
  intros cwd scriptMode cwdMode scriptPath w Hscript Hcwd.
  unfold getProjectSearchDir. rewrite Hscript. cbn [andb].
  assert (Hstrict : is_true_strict scriptMode = false)
    by (destruct scriptMode as [[|]|]; [discriminate|reflexivity..]).
  rewrite Hstrict.
  destruct Hcwd as [->|Hpath]; [reflexivity|].
  rewrite Hpath. destruct (is_true_strict cwdMode); reflexivity.
Qed.

(** X7. Given a script path and no cwd-mode flag, [getProjectSearchDir]
    asks node's resolver exactly once, with the loaders for [.js], [.jsx],
    [.ts] and [.tsx] registered on top of those already there; it returns
    the directory of what the resolver found, and a failure of the resolver
    is the failure of the call. *)
Theorem getProjectSearchDir_script_mode :
  forall (cwd : option string) (scriptMode cwdMode : option bool)
         (script : string) (w : World PreloadedConfig Service),
    script <> "" ->
    cwdMode <> Some true ->
    let requirer :=
      path_join H (fst (path_parse H script))
        "imaginaryUncacheableRequireResolveScript" in
    let request := ("./" ++ snd (path_parse H script))%string in
    let paths :=
      (guaranteedNonexistentDirectoryPrefix H (proc w)
         ++ number_to_string (guaranteedNonexistentDirectorySuffix w))%string
        :: nullish_or (require_resolve_paths H requirer request) [] in
    let run := getProjectSearchDir H cwd scriptMode cwdMode (Some script) w in
    exists extensions,
      (forall ext, In ext [".js"; ".jsx"; ".ts"; ".tsx"] ->
                   In ext extensions)
      /\ incl (require_extensions w) extensions
      /\ fst run
         = match require_resolve H extensions requirer request paths with
           | Returned resolved => Returned (Some (path_dirname H resolved))
           | Threw e => Threw e
           | Exited status => Exited status
           end
      /\ trace (snd run)
         = trace w ++ [call_require_resolve requirer request paths]
      /\ guaranteedNonexistentDirectorySuffix (snd run)
         = S (guaranteedNonexistentDirectorySuffix w).
Proof.
  intros cwd scriptMode cwdMode script w Hscript Hcwd requirer request paths
    run.
  assert (Hpath : truthy_str (Some script) = true).
  { cbn. apply negb_true_iff. now apply String.eqb_neq. }
  assert (Htruthy : truthy cwdMode = false)
    by (destruct cwdMode as [[|]|]; [congruence|reflexivity..]).
  assert (Hstrict : is_true_strict cwdMode = false)
    by (destruct cwdMode as [[|]|]; [congruence|reflexivity..]).
  destruct (installExtensions_spec [".js"; ".jsx"; ".ts"; ".tsx"] [] w)
    as (added & Hinstall & Hfresh & Hall).
  exists (require_extensions w ++ added).
  split; [|split].
  - intros ext Hin. apply hasOwnProperty_In. now apply Hall.
  - apply incl_appl, incl_refl.
  - subst run.
    destruct (getProjectSearchDir H cwd scriptMode cwdMode (Some script) w)
      as [completion w'] eqn:Hrun.
    unfold getProjectSearchDir in Hrun.
    rewrite Htruthy, Hpath, Hstrict in Hrun.
    replace (truthy scriptMode && false) with false in Hrun
      by (now rewrite andb_false_r).
    replace (truthy scriptMode && negb true) with false in Hrun
      by (now rewrite andb_false_r).
    replace (if is_true_strict scriptMode then true else true) with true
      in Hrun by (destruct (is_true_strict scriptMode); reflexivity).
    unfold bind at 1 in Hrun. rewrite Hinstall in Hrun. cbn [app] in Hrun.
    unfold try_finally, requireResolveNonCached in Hrun.
    subst requirer request paths.
    destruct (path_parse H script) as [dir base]. cbn [fst snd].
    unfold bind, gets, modify, call, ret in Hrun.
    cbn [proc require_extensions guaranteedNonexistentDirectorySuffix
         with_suffix with_require_extensions trace with_trace] in Hrun.
    destruct (require_resolve H (require_extensions w ++ added) _ _ _)
      as [resolved|e|status];
      rewrite ?removeExtensions_spec in Hrun;
      injection Hrun as <- <-; cbn; auto.
Qed.

Lemma append_inj_l :
  forall a b c : string, (a ++ b = a ++ c)%string -> b = c.
Proof.
  induction a as [|ch a IH]; intros b c Heq; cbn in Heq; [exact Heq|].
  injection Heq as Heq. now apply IH.
Qed.

Lemma number_to_string_inj :
  forall n m, number_to_string n = number_to_string m -> n = m.
Proof.
  assert (Hnonnil : forall n, Nat.to_uint n <> Decimal.Nil).
  { intros n Hnil.
    pose proof (DecimalNat.Unsigned.of_to n) as Hof.
    rewrite Hnil in Hof. cbn in Hof. subst n. discriminate Hnil. }
  intros n m Heq. unfold number_to_string in Heq.
  apply DecimalNat.Unsigned.to_uint_inj.
  pose proof (NilZero.usu _ (Hnonnil n)) as Hn.
  pose proof (NilZero.usu _ (Hnonnil m)) as Hm.
  rewrite Heq in Hn. congruence.
Qed.

(** X8. Two successive calls of [requireResolveNonCached] put different
    nonexistent directories at the head of their search paths, so node's
    resolution cache is never hit by the second. *)
Theorem requireResolveNonCached_fresh_directory :
  forall (script1 script2 : string) (w : World PreloadedConfig Service),
    let w1 := snd (requireResolveNonCached H script1 w) in
    let w2 := snd (requireResolveNonCached H script2 w1) in
    exists dir1 more1 dir2 more2,
      resolution_paths (trace w2)
      = resolution_paths (trace w) ++ [dir1 :: more1; dir2 :: more2]
      /\ dir1 <> dir2.
Proof.
  intros script1 script2 w w1 w2. subst w2 w1.
  unfold requireResolveNonCached.
  destruct (path_parse H script1) as [dir1 base1].
  destruct (path_parse H script2) as [dir2 base2].
  unfold bind, gets, modify, call, ret.
  cbn [snd proc guaranteedNonexistentDirectorySuffix with_suffix trace
       with_trace].
  do 4 eexists. split.
  - unfold resolution_paths. rewrite !flat_map_app. cbn [flat_map app].
    rewrite <- app_assoc. cbn [app]. reflexivity.
  - intros Heq. apply append_inj_l, number_to_string_inj in Heq.
    now apply n_Sn in Heq.
Qed.

End ProjectSearchDir.

Section BootstrapFlow.

Context {PreloadedConfig Service Obj : Type}.
Variable H : Host PreloadedConfig Service Obj.

Lemma events_where_snoc_selected :
  forall (f : Event PreloadedConfig Service -> bool) e w,
    f e = true ->
    events_where f (with_trace (trace w ++ [e]) w) = events_where f w ++ [e].
Proof.
  intros f e w He. unfold events_where. cbn [trace with_trace].
  rewrite filter_app. cbn. now rewrite He.
Qed.

Lemma phase2_Returned_inv :
  forall (st : BootstrapState PreloadedConfig)
         (w w' : World PreloadedConfig Service) r,
    phase2 H st w = (Returned r, w') ->
    w' = w
    /\ r = {| resolutionCwd :=
                match ParsedArgv.cwdArg (parseArgvResult st) with
                | Some dir => path_resolve H (process.cwd (proc w)) [dir]
                | None => process.cwd (proc w)
                end |}.
Proof.
  intros st w w' r Hrun.
  unfold phase2, bind, when, gets, ret, emit, modify, process_exit in Hrun.
  destruct (ParsedArgv.help (parseArgvResult st)); [discriminate|].
  destruct (Nat.eqb (ParsedArgv.version (parseArgvResult st)) 1);
    [discriminate|].
  injection Hrun as <- <-. now split.
Qed.

Lemma phase2_keeps_events :
  forall f (st : BootstrapState PreloadedConfig),
    f (console_log usage_text : Event PreloadedConfig Service) = false ->
    f (console_log ("v" ++ VERSION H) : Event PreloadedConfig Service)
    = false ->
    keeps (events_where f) (phase2 H st).
Proof.
  intros f st Husage Hversion. unfold phase2.
  repeat first [ apply keeps_emit; intro; apply events_where_snoc; assumption
               | keeps_step ].
Qed.

Lemma getProjectSearchDir_keeps_events :
  forall f cwd scriptMode cwdMode scriptPath,
    (forall requirer request paths,
        f (call_require_resolve requirer request paths
           : Event PreloadedConfig Service) = false) ->
    keeps (events_where f)
          (getProjectSearchDir H cwd scriptMode cwdMode scriptPath).
Proof.
  intros f cwd scriptMode cwdMode scriptPath Hf.
  unfold getProjectSearchDir, requireResolveNonCached.
  assert (Hinstall : forall exts acc,
             keeps (events_where f)
                   (installExtensions (PreloadedConfig := PreloadedConfig)
                      (Service := Service) exts acc)).
  { induction exts as [|ext rest IH]; intros acc; cbn [installExtensions];
      repeat first [ apply IH | keeps_step ]. }
  assert (Hremove : forall exts,
             keeps (events_where f)
                   (removeExtensions (PreloadedConfig := PreloadedConfig)
                      (Service := Service) exts)).
  { induction exts as [|ext rest IH]; cbn [removeExtensions];
      repeat first [ apply IH | keeps_step ]. }
  repeat first [ apply Hinstall | apply Hremove
               | apply keeps_call; intro; apply events_where_snoc; apply Hf
               | keeps_step ].
Qed.

Lemma getProjectSearchDir_keeps_proc :
  forall cwd scriptMode cwdMode scriptPath,
    keeps (proc (PreloadedConfig := PreloadedConfig) (Service := Service))
          (getProjectSearchDir H cwd scriptMode cwdMode scriptPath).
Proof.
  intros cwd scriptMode cwdMode scriptPath.
  unfold getProjectSearchDir, requireResolveNonCached.
  assert (Hinstall : forall exts acc,
             keeps (proc (PreloadedConfig := PreloadedConfig)
                      (Service := Service))
                   (installExtensions exts acc)).
  { induction exts as [|ext rest IH]; intros acc; cbn [installExtensions];
      repeat first [ apply IH | keeps_step ]. }
  assert (Hremove : forall exts,
             keeps (proc (PreloadedConfig := PreloadedConfig)
                      (Service := Service))
                   (removeExtensions exts)).
  { induction exts as [|ext rest IH]; cbn [removeExtensions];
      repeat first [ apply IH | keeps_step ]. }
  repeat first [ apply Hinstall | apply Hremove | keeps_step ].
Qed.

Lemma phase3_keeps_proc :
  forall payload : BootstrapStateForChild PreloadedConfig,
    keeps (proc (PreloadedConfig := PreloadedConfig) (Service := Service))
          (phase3 H payload).
Proof.
  intros payload. unfold phase3.
  repeat first [ apply getProjectSearchDir_keeps_proc | keeps_step ].
Qed.

Lemma phase3_keeps_events :
  forall f (payload : BootstrapStateForChild PreloadedConfig),
    (forall requirer request paths,
        f (call_require_resolve requirer request paths
           : Event PreloadedConfig Service) = false) ->
    (forall options,
        f (call_findAndReadConfig options : Event PreloadedConfig Service)
        = false) ->
    keeps (events_where f) (phase3 H payload).
Proof.
  intros f payload Hresolve Hconfig. unfold phase3.
  repeat first [ apply getProjectSearchDir_keeps_events; exact Hresolve
               | apply keeps_call; intro; apply events_where_snoc;
                 apply Hconfig
               | keeps_step ].
Qed.

Lemma phase4_never_spawns :
  forall payload : BootstrapStateForChild PreloadedConfig,
    keeps (events_where is_spawn) (phase4 H payload).
Proof.
  intros payload.
  unfold phase4, printVersionInformation, printConfiguration, listenOnStdin,
    setService, createVirtualFileWithModule, createReplVirtualFile,
    createRepl, evalAndExitOnTsError.
  repeat keeps_step.
Qed.

(** X9. Whatever options [phase3] hands to [findAndReadConfig], their
    [transpileOnly] is [true] or absent, never [false] (it is [true] when
    the flag is, or when the flag is absent and a transpiler is named), and
    their [experimentalReplAwait] is [false] or absent, never [true] (it is
    [false] exactly under [--noExperimentalReplAwait]); the directory, the
    [require] list and the [esm] flag are those of the command line. *)
Theorem phase3_options_handed_over :
  forall (payload : BootstrapStateForChild PreloadedConfig)
         (w : World PreloadedConfig Service) (options : RawOptions.t),
    In (call_findAndReadConfig options) (trace (snd (phase3 H payload w))) ->
    ~ In (call_findAndReadConfig options) (trace w) ->
    exists a resolutionCwd,
      initialArgv payload = Some a
      /\ initialResolutionCwd payload = Some resolutionCwd
      /\ RawOptions.cwd options = resolutionCwd
      /\ RawOptions.require options = ParsedArgv.argsRequire a
      /\ RawOptions.esm options = ParsedArgv.esm a
      /\ RawOptions.transpileOnly options <> Some false
      /\ (RawOptions.transpileOnly options = Some true
          <-> ParsedArgv.transpileOnly a = Some true
              \/ (ParsedArgv.transpileOnly a = None
                  /\ ParsedArgv.transpiler a <> None))
      /\ RawOptions.experimentalReplAwait options <> Some true
      /\ (RawOptions.experimentalReplAwait options = Some false
          <-> ParsedArgv.noExperimentalReplAwait a = Some true).
Proof.
  intros payload w options Hin Hnew. unfold phase3 in Hin.
  destruct (initialArgv payload) as [a|]; [|now destruct Hnew].
  destruct (initialResolutionCwd payload) as [resolutionCwd|];
    [|now destruct Hnew].
  exists a, resolutionCwd. split; [reflexivity|]. split; [reflexivity|].
  unfold bind at 1 in Hin. cbn [gets] in Hin. unfold bind at 1 in Hin.
  match type of Hin with
  | context [getProjectSearchDir H ?c ?s ?m ?p w] =>
      pose proof (getProjectSearchDir_keeps_events (@is_config_lookup _ _) c s m p
                    (fun _ _ _ => eq_refl) w) as Hkept;
      destruct (getProjectSearchDir H c s m p w) as [[dir|e|status] w1]
  end; cbn [snd] in Hkept, Hin.
  - assert (Hold : ~ In (call_findAndReadConfig options) (trace w1)).
    { intros Hin1. apply Hnew.
      assert (Hf : In (call_findAndReadConfig options)
                      (events_where (@is_config_lookup _ _) w1))
        by (apply filter_In; now split).
      rewrite Hkept in Hf. now apply filter_In in Hf. }
    unfold bind, call, ret in Hin.
    match type of Hin with
    | context [findAndReadConfig H ?o] =>
        destruct (findAndReadConfig H o) as [config|e|status]
    end; cbn [snd trace with_trace] in Hin;
      apply in_app_or in Hin as [Hin|[Hin|[]]]; try contradiction;
      injection Hin as <-; cbn;
      destruct (ParsedArgv.transpileOnly a) as [[|]|],
        (ParsedArgv.transpiler a) as [name|],
        (ParsedArgv.noExperimentalReplAwait a) as [[|]|];
      cbn; repeat split; intros;
      repeat match goal with
             | E : _ \/ _ |- _ => destruct E
             | E : _ /\ _ |- _ => destruct E
             end; try discriminate; try congruence; auto;
      try (right; split; [reflexivity|discriminate]).
  - exfalso. apply Hnew.
    assert (Hf : In (call_findAndReadConfig options)
                    (events_where (@is_config_lookup _ _) w1))
      by (apply filter_In; now split).
    rewrite Hkept in Hf. now apply filter_In in Hf.
  - exfalso. apply Hnew.
    assert (Hf : In (call_findAndReadConfig options)
                    (events_where (@is_config_lookup _ _) w1))
      by (apply filter_In; now split).
    rewrite Hkept in Hf. now apply filter_In in Hf.
Qed.

(** X10. [bootstrap] spawns at most one child.  When it does, the child is
    handed the parsed arguments and their rest arguments together with the
    current directory of the process, and the process itself neither
    constructs a compiler service nor starts any user code. *)
Theorem bootstrap_hands_over_once :
  forall (st0 : BootstrapState PreloadedConfig)
         (w : World PreloadedConfig Service),
    let w' := snd (bootstrap H st0 w) in
    events_where is_spawn w' = events_where is_spawn w
    \/ exists handed,
        events_where is_spawn w'
        = events_where is_spawn w
          ++ [callInChildWithEsm handed (process.cwd (proc w))]
        /\ restArgs handed = ParsedArgv.restArgs (parseArgvResult st0)
        /\ initialArgv handed = Some (parseArgvResult st0)
        /\ events_where is_service_construction w'
           = events_where is_service_construction w
        /\ events_where is_execution w' = events_where is_execution w.
Proof.
  intros st0 w w'. subst w'.
  destruct (bootstrap H st0 w) as [completion wf] eqn:Hrun. cbn [snd].
  unfold bootstrap in Hrun. unfold bind at 1 in Hrun.
  destruct (phase2 H st0 w) as [[p2|e|status] w1] eqn:Hp2.
  - apply phase2_Returned_inv in Hp2 as [-> ->].
    destruct (truthy (ParsedArgv.esm (parseArgvResult st0))).
    + right. unfold bind, gets, emit, modify in Hrun. injection Hrun as _ <-.
      eexists. rewrite events_where_snoc_selected by reflexivity.
      rewrite !events_where_snoc by reflexivity. repeat split.
    + unfold bind at 1 in Hrun.
      match type of Hrun with
      | context [phase3 H ?init w] =>
          pose proof (phase3_keeps_events is_spawn init
                        (fun _ _ _ => eq_refl) (fun _ => eq_refl) w)
            as Hspawn;
          pose proof (phase3_keeps_events is_service_construction init
                        (fun _ _ _ => eq_refl) (fun _ => eq_refl) w)
            as Hservice;
          pose proof (phase3_keeps_events is_execution init
                        (fun _ _ _ => eq_refl) (fun _ => eq_refl) w)
            as Hexecution;
          pose proof (phase3_keeps_proc init w) as Hproc;
          destruct (phase3 H init w) as [[p3|e|status] w2]
      end; cbn [snd] in *;
        try (injection Hrun as _ <-; left; exact Hspawn).
      destruct (enableEsmLoader p3).
      * right. unfold bind, gets, emit, modify in Hrun.
        injection Hrun as _ <-.
        eexists. rewrite events_where_snoc_selected by reflexivity.
        rewrite !events_where_snoc by reflexivity.
        rewrite Hspawn, Hservice, Hexecution, Hproc. repeat split.
      * left. unfold completeBootstrap in Hrun.
        cbn [phase3Result] in Hrun. unfold bind at 1, ret at 1 in Hrun.
        match type of Hrun with
        | phase4 H ?st w2 = _ =>
            pose proof (phase4_never_spawns st w2) as Hkept
        end.
        rewrite Hrun in Hkept. cbn [snd] in Hkept.
        now rewrite Hkept.
  - left. injection Hrun as _ <-.
    pose proof (phase2_keeps_events is_spawn st0 eq_refl eq_refl w)
      as Hkept. rewrite Hp2 in Hkept. exact Hkept.
  - left. injection Hrun as _ <-.
    pose proof (phase2_keeps_events is_spawn st0 eq_refl eq_refl w)
      as Hkept. rewrite Hp2 in Hkept. exact Hkept.
Qed.

(** X11. Without the [--esm] flag, and with a configuration that does not
    enable esm either, [bootstrap] finishes in the same process: it runs
    [phase4] on the state that carries the result of [phase3], after one
    configuration lookup and without spawning a child. *)
Theorem bootstrap_in_process :
  forall (st0 : BootstrapState PreloadedConfig)
         (w w1 : World PreloadedConfig Service)
         (p3 : Phase3Result PreloadedConfig),
    ParsedArgv.help (parseArgvResult st0) = false ->
    ParsedArgv.version (parseArgvResult st0) <> 1 ->
    truthy (ParsedArgv.esm (parseArgvResult st0)) = false ->
    let dir :=
      match ParsedArgv.cwdArg (parseArgvResult st0) with
      | Some dir => path_resolve H (process.cwd (proc w)) [dir]
      | None => process.cwd (proc w)
      end in
    phase3 H {| restArgs := ParsedArgv.restArgs (parseArgvResult st0);
                phase3Result := None;
                initialArgv := Some (parseArgvResult st0);
                initialResolutionCwd := Some dir |} w
    = (Returned p3, w1) ->
    enableEsmLoader p3 = false ->
    bootstrap H st0 w
    = phase4 H {| restArgs := ParsedArgv.restArgs (parseArgvResult st0);
                  phase3Result := Some p3;
                  initialArgv := Some (parseArgvResult st0);
                  initialResolutionCwd := Some dir |} w1
    /\ config_lookups (trace (snd (bootstrap H st0 w)))
       = config_lookups (trace w) + 1
    /\ events_where is_spawn (snd (bootstrap H st0 w))
       = events_where is_spawn w.
Proof.
  intros st0 w w1 p3 Hhelp Hversion Hesm dir Hp3 Hloader.
  assert (Hp2 : phase2 H st0 w = (Returned {| resolutionCwd := dir |}, w)).
  { unfold phase2. rewrite Hhelp.
    apply Nat.eqb_neq in Hversion. rewrite Hversion. reflexivity. }
  assert (Heq : bootstrap H st0 w
                = phase4 H {| restArgs :=
                                ParsedArgv.restArgs (parseArgvResult st0);
                              phase3Result := Some p3;
                              initialArgv := Some (parseArgvResult st0);
                              initialResolutionCwd := Some dir |}
                    w1).
  { unfold bootstrap. unfold bind at 1. rewrite Hp2, Hesm.
    cbn [resolutionCwd]. unfold bind at 1. rewrite Hp3, Hloader.
    unfold completeBootstrap. cbn [phase3Result restArgs initialArgv
      initialResolutionCwd]. reflexivity. }
  split; [exact Heq|]. rewrite Heq. split.
  - rewrite phase4_quiet. eapply phase3_one_lookup. exact Hp3.
  - rewrite phase4_never_spawns.
    pose proof (phase3_keeps_events is_spawn
                  {| restArgs := ParsedArgv.restArgs (parseArgvResult st0);
                     phase3Result := None;
                     initialArgv := Some (parseArgvResult st0);
                     initialResolutionCwd := Some dir |}
                  (fun _ _ _ => eq_refl) (fun _ => eq_refl) w) as Hkept.
    rewrite Hp3 in Hkept. exact Hkept.
Qed.

(** X12. When no entry point comes out of the arguments (inline code, REPL
    or piped input), or the cwd-mode flag is set, and the script-mode flag
    is not, [phase3] resolves nothing: it makes its one configuration
    lookup with the resolution directory as project search directory, and
    completes as that lookup does, an error of the lookup included. *)
Theorem phase3_searches_from_resolution_directory :
  forall (payload : BootstrapStateForChild PreloadedConfig)
         (a : ParsedArgv.t) (resolutionCwd : string)
         (w : World PreloadedConfig Service),
    initialArgv payload = Some a ->
    initialResolutionCwd payload = Some resolutionCwd ->
    truthy (ParsedArgv.scriptMode a) = false ->
    ParsedArgv.cwdMode a = Some true
    \/ executeEntrypoint
         (getEntryPointInfo H (proc w) resolutionCwd (ParsedArgv.code a)
            (Some (ParsedArgv.interactive a)) (ParsedArgv.restArgs a))
       = false ->
    exists options,
      RawOptions.projectSearchDir options = Some resolutionCwd
      /\ RawOptions.cwd options = resolutionCwd
      /\ phase3 H payload w
         = (match findAndReadConfig H options with
            | Returned config =>
                Returned
                  {| preloadedConfig := config;
                     enableEsmLoader :=
                       truthy (options_esm H config)
                       || truthy (ParsedArgv.esm a) |}
            | Threw e => Threw e
            | Exited status => Exited status
            end,
            with_trace (trace w ++ [call_findAndReadConfig options]) w).
Proof.
  intros payload a resolutionCwd w Hargv Hcwd Hscript Hmode.
  assert (Hdir :
            getProjectSearchDir H (Some resolutionCwd)
              (ParsedArgv.scriptMode a) (ParsedArgv.cwdMode a)
              (entryPointPath
                 (getEntryPointInfo H (proc w) resolutionCwd
                    (ParsedArgv.code a) (Some (ParsedArgv.interactive a))
                    (ParsedArgv.restArgs a))) w
            = (Returned (Some resolutionCwd), w)).
  { unfold getProjectSearchDir. rewrite Hscript. cbn [andb].
    assert (Hstrict : is_true_strict (ParsedArgv.scriptMode a) = false)
      by (destruct (ParsedArgv.scriptMode a) as [[|]|];
          [discriminate|reflexivity..]).
    rewrite Hstrict.
    destruct Hmode as [->|Hentry]; [reflexivity|].
    unfold getEntryPointInfo in *.
    cbn [executeEntrypoint entryPointPath] in *. rewrite Hentry.
    destruct (is_true_strict (ParsedArgv.cwdMode a)); reflexivity. }
  destruct (phase3 H payload w) as [completion w'] eqn:Hrun.
  unfold phase3 in Hrun. rewrite Hargv, Hcwd in Hrun.
  unfold bind at 1 in Hrun. cbn [gets] in Hrun.
  unfold bind at 1 in Hrun. rewrite Hdir in Hrun.
  unfold bind, call, ret in Hrun.
  match type of Hrun with
  | context [findAndReadConfig H ?o] =>
      exists o; split; [reflexivity|]; split; [reflexivity|];
      destruct (findAndReadConfig H o) as [config|e|status]
  end; injection Hrun as <- <-; [|reflexivity..].
  f_equal. f_equal. f_equal. unfold js_or, truthy.
  destruct (options_esm H config) as [[|]|],
    (ParsedArgv.esm a) as [[|]|]; reflexivity.
Qed.

End BootstrapFlow.

Section DispatcherModes.

Context {PreloadedConfig Service Obj : Type}.
Variable H : Host PreloadedConfig Service Obj.


Ltac observe_trace :=
  unfold events_where, printed, evaluated;
  cbn [snd fst trace with_trace with_proc with_stdin_listeners proc];
  rewrite ?flat_map_app, ?filter_app;
  cbn [flat_map filter app is_execution is_output is_spawn
       is_service_construction];
  rewrite ?app_nil_r, <- ?app_assoc; cbn [app].


(** X14. A forked child, whose state holds no parsed arguments, prints
    nothing and evaluates nothing in [phase4]: once the compiler service is
    constructed, [phase4] returns after starting exactly one thing, the
    entry point when there are rest arguments, else the REPL when standard
    input is a terminal, else the listeners on standard input. *)
Theorem phase4_in_forked_child :
  forall (payload : BootstrapStateForChild PreloadedConfig)
         (p3 : Phase3Result PreloadedConfig)
         (w : World PreloadedConfig Service),
    initialArgv payload = None ->
    phase3Result payload = Some p3 ->
    (forall overlay,
        exists service,
          createFromPreloadedConfig H (preloadedConfig p3) overlay
          = Returned service) ->
    let run := phase4 H payload w in
    fst run = Returned tt
    /\ events_where is_output (snd run) = events_where is_output w
    /\ evaluated (trace (snd run)) = evaluated (trace w)
    /\ match restArgs payload with
       | _ :: _ =>
           exists e,
             events_where is_execution (snd run)
             = events_where is_execution w ++ [e]
             /\ (e = call_runMain \/ exists entry, e = call_runMainHack entry)
       | [] =>
           if truthy (process.stdin_isTTY (proc w))
           then exists r,
               events_where is_execution (snd run)
               = events_where is_execution w ++ [call_repl_start r]
           else events_where is_execution (snd run)
                = events_where is_execution w
                  ++ [stdin_on "data"; stdin_on "end"]
       end.
Proof.
  intros payload p3 w Hargv Hp3 Hservice run. subst run.
  destruct (phase4 H payload w) as [completion w'] eqn:Hrun.
  unfold phase4 in Hrun. rewrite Hp3 in Hrun.
  unfold bind at 1 in Hrun. cbn [gets] in Hrun.
  unfold_phase4_in Hrun.
  unfold phase4_entryPointInfo, getEntryPointInfo in Hrun.
  rewrite Hp3, Hargv in Hrun.
  cbn [executeEval executeEntrypoint executeRepl executeStdin entryPointPath
       option_map not_nullish andb negb] in Hrun.
  destruct (restArgs payload) as [|script others],
    (process.stdin_isTTY (proc w)) as [[|]|];
    cbn [length Nat.ltb Nat.leb andb negb js_and js_or js_not optbool
         ToBoolean truthy nullish_or] in Hrun;
    unfold_monad_in Hrun;
    cbn [trace with_trace with_proc proc state repl module path
         evalAwarePartialHost repl_state nullish_or
         ignoreDiagnosticsThatAreAnnoyingInInteractiveRepl repl_service]
      in Hrun;
    match type of Hrun with
    | context [createFromPreloadedConfig H ?c ?o] =>
        destruct (Hservice o) as [service Hs]; rewrite Hs in Hrun
    end;
    cbn in Hrun;
    repeat (step_in Hrun; cbn in Hrun);
    injection Hrun as <- <-;
    (split; [reflexivity|]);
    (split; [observe_trace; reflexivity|]);
    (split; [observe_trace; reflexivity|]);
    try (eexists; split; [observe_trace; reflexivity|]; eauto);
    try (eexists; observe_trace; reflexivity);
    try (observe_trace; reflexivity).
Qed.

(** X15. With [--showConfig] (and no version request), once the compiler
    service is constructed [phase4] ends the process before any user code
    is started and before [process.argv] or [process.execArgv] are touched:
    with status 0 after printing the configuration when the compiler can
    translate it, with status 1 after an error message when it cannot. *)
Theorem phase4_shows_configuration :
  forall (payload : BootstrapStateForChild PreloadedConfig)
         (a : ParsedArgv.t) (p3 : Phase3Result PreloadedConfig)
         (w : World PreloadedConfig Service),
    initialArgv payload = Some a ->
    phase3Result payload = Some p3 ->
    ParsedArgv.version a < 2 ->
    truthy (ParsedArgv.showConfig a) = true ->
    (forall overlay,
        exists service,
          createFromPreloadedConfig H (preloadedConfig p3) overlay
          = Returned service) ->
    let run := phase4 H payload w in
    exists service,
      fst run
      = Exited (if convertToTSConfig_is_function H service then 0 else 1)
      /\ events_where is_output (snd run)
         = events_where is_output w
           ++ [if convertToTSConfig_is_function H service
               then console_log
                      (showConfig_json H service
                         (phase4_resolutionCwd (proc w) payload))
               else console_error
                      "Error: --showConfig requires a typescript versions >=3.2 that support --showConfig"]
      /\ events_where is_execution (snd run) = events_where is_execution w
      /\ proc (snd run) = proc w.
Proof.
  intros payload a p3 w Hargv Hp3 Hversion Hshow Hservice run. subst run.
  destruct (phase4 H payload w) as [completion w'] eqn:Hrun.
  cbn [fst snd].
  unfold phase4 in Hrun. rewrite Hp3 in Hrun.
  unfold bind at 1 in Hrun. cbn [gets] in Hrun.
  unfold printVersionInformation, printConfiguration in Hrun.
  rewrite Hargv, Hshow in Hrun. cbn [option_map] in Hrun.
  destruct (executeEval (phase4_entryPointInfo H (proc w) payload)),
    (executeStdin (phase4_entryPointInfo H (proc w) payload)),
    (ToBoolean (executeRepl (phase4_entryPointInfo H (proc w) payload))),
    (enableEsmLoader p3).
  all: destruct (ParsedArgv.version a) as [|[|n]]; try lia.
  all: unfold createVirtualFileWithModule, createReplVirtualFile, createRepl,
         setService, hostOf, bind, when, emit, modify, gets, call, ret
         in Hrun.
  all: cbn [trace with_trace with_proc proc state repl module
            evalAwarePartialHost repl_state path nullish_or
            ignoreDiagnosticsThatAreAnnoyingInInteractiveRepl repl_service
            Nat.eqb Nat.leb] in Hrun.
  all: match type of Hrun with
       | context [createFromPreloadedConfig H ?c ?o] =>
           destruct (Hservice o) as [service Hs]; rewrite Hs in Hrun
       end.
  all: exists service.
  all: destruct (convertToTSConfig_is_function H service).
  all: cbn [negb trace with_trace with_proc proc process_exit] in Hrun.
  all: injection Hrun as <- <-.
  all: repeat split; observe_trace; reflexivity.
Qed.

Lemma executeEval_excludes :
  forall p (payload : BootstrapStateForChild PreloadedConfig),
    executeEval (phase4_entryPointInfo H p payload) = true ->
    executeEntrypoint (phase4_entryPointInfo H p payload) = false
    /\ executeStdin (phase4_entryPointInfo H p payload) = false.
Proof.
  intros p payload. unfold phase4_entryPointInfo, getEntryPointInfo.
  cbn [executeEval executeEntrypoint executeStdin]. intros ->.
  split; reflexivity.
Qed.

Ltac run_phase4_eval Hrun Heval Hentry Hstdin Hrepl Hp3 Hargv Hcode Hshow
                      Hv Hservice Hcode_run :=
  unfold phase4 in Hrun; rewrite Hp3 in Hrun;
  unfold bind at 1 in Hrun; cbn [gets] in Hrun;
  rewrite Heval, Hentry, Hstdin, Hrepl in Hrun;
  unfold_phase4_in Hrun; unfold evalAndExitOnTsError in Hrun;
  rewrite Hp3, Hargv, Hcode, Hshow in Hrun;
  cbn [option_map] in Hrun; rewrite Hv in Hrun;
  unfold_monad_in Hrun;
  cbn [trace with_trace with_proc proc state repl module path option_map
       evalAwarePartialHost repl_state nullish_or app
       ignoreDiagnosticsThatAreAnnoyingInInteractiveRepl repl_service
       Nat.leb] in Hrun;
  rewrite Hservice in Hrun;
  cbn [trace with_trace with_proc proc state repl module path option_map
       evalAwarePartialHost repl_state nullish_or app
       ignoreDiagnosticsThatAreAnnoyingInInteractiveRepl repl_service
       Nat.leb] in Hrun;
  rewrite Hcode_run in Hrun.

(** X16. In evaluation mode, with no version or show-config request
    pending, the compiler service constructed and the inline code
    evaluating to a value, [phase4] evaluates the code once, through the
    REPL service of the [[eval]] file bound to that compiler service, prints
    the value when the print flag is set, only then starts the REPL when it
    is requested as well, on the same compiler service, and returns. *)
Theorem phase4_evaluates_inline_code :
  forall (payload : BootstrapStateForChild PreloadedConfig)
         (a : ParsedArgv.t) (p3 : Phase3Result PreloadedConfig)
         (c : string) (service : Service) (result : EvalResult Obj)
         (w : World PreloadedConfig Service),
    initialArgv payload = Some a ->
    phase3Result payload = Some p3 ->
    ParsedArgv.code a = Some c ->
    executeEval (phase4_entryPointInfo H (proc w) payload) = true ->
    ParsedArgv.version a < 2 ->
    truthy (ParsedArgv.showConfig a) = false ->
    let dir := phase4_resolutionCwd (proc w) payload in
    let evalPath := path_join H dir (EVAL_FILENAME H) in
    let interactive :=
      ToBoolean (executeRepl (phase4_entryPointInfo H (proc w) payload)) in
    let overlay : EvalAwarePartialHost :=
      if interactive
      then [path_join H dir (REPL_FILENAME H); evalPath]
      else [evalPath] in
    let r :=
      {| repl_state := {| path := evalPath |};
         evalAwarePartialHost := [evalPath];
         ignoreDiagnosticsThatAreAnnoyingInInteractiveRepl := Some false;
         repl_service := Some service |} in
    createFromPreloadedConfig H (preloadedConfig p3) (Some overlay)
    = Returned service ->
    evalCode H r c = Returned result ->
    let run := phase4 H payload w in
    fst run = Returned tt
    /\ printed (trace (snd run))
       = printed (trace w)
         ++ (if ParsedArgv.print a
             then [match result with
                   | ResultString text => text
                   | ResultOther _ =>
                       inspect H result (process.stdout_isTTY (proc w))
                   end]
             else [])
    /\ exists started,
        events_where is_execution (snd run)
        = events_where is_execution w ++ call_evalCode r c :: started
        /\ if interactive
           then exists r',
               started = [call_repl_start r']
               /\ repl_service r' = Some service
           else started = [].
Proof.
  intros payload a p3 c service result w Hargv Hp3 Hcode Heval Hversion Hshow
    dir evalPath interactive overlay r Hservice Hresult run.
  destruct (executeEval_excludes _ _ Heval) as [Hentry Hstdin].
  subst run. destruct (phase4 H payload w) as [completion w'] eqn:Hrun.
  cbn [fst snd].
  subst overlay r. subst interactive.
  destruct (ToBoolean (executeRepl (phase4_entryPointInfo H (proc w) payload)))
    eqn:Hrepl;
    subst evalPath dir;
    destruct (ParsedArgv.version a) as [|[|n]] eqn:Hv; try lia;
    run_phase4_eval Hrun Heval Hentry Hstdin Hrepl Hp3 Hargv Hcode Hshow
      Hv Hservice Hresult;
    destruct (enableEsmLoader p3), (ParsedArgv.print a);
    cbn in Hrun;
    repeat (step_in Hrun; cbn in Hrun);
    injection Hrun as <- <-;
    (split; [reflexivity|]);
    (split; [observe_trace; reflexivity|]);
    eexists; (split; [observe_trace; reflexivity|]);
    try reflexivity; eexists; split; reflexivity.
Qed.

(** X17. In evaluation mode, when the inline code fails with a [TSError],
    [phase4] reports it on standard error and ends the process with status
    1: nothing is printed on standard output and the REPL is not started,
    even when it was requested. *)
Theorem phase4_inline_code_TSError :
  forall (payload : BootstrapStateForChild PreloadedConfig)
         (a : ParsedArgv.t) (p3 : Phase3Result PreloadedConfig)
         (c : string) (service : Service) (diagnostics : string)
         (w : World PreloadedConfig Service),
    initialArgv payload = Some a ->
    phase3Result payload = Some p3 ->
    ParsedArgv.code a = Some c ->
    executeEval (phase4_entryPointInfo H (proc w) payload) = true ->
    ParsedArgv.version a < 2 ->
    truthy (ParsedArgv.showConfig a) = false ->
    let dir := phase4_resolutionCwd (proc w) payload in
    let evalPath := path_join H dir (EVAL_FILENAME H) in
    let interactive :=
      ToBoolean (executeRepl (phase4_entryPointInfo H (proc w) payload)) in
    let overlay : EvalAwarePartialHost :=
      if interactive
      then [path_join H dir (REPL_FILENAME H); evalPath]
      else [evalPath] in
    let r :=
      {| repl_state := {| path := evalPath |};
         evalAwarePartialHost := [evalPath];
         ignoreDiagnosticsThatAreAnnoyingInInteractiveRepl := Some false;
         repl_service := Some service |} in
    createFromPreloadedConfig H (preloadedConfig p3) (Some overlay)
    = Returned service ->
    evalCode H r c = Threw (TSError diagnostics) ->
    let run := phase4 H payload w in
    fst run = Exited 1
    /\ events_where is_output (snd run)
       = events_where is_output w
         ++ [console_error_thrown (TSError diagnostics)]
    /\ events_where is_execution (snd run)
       = events_where is_execution w ++ [call_evalCode r c].
Proof.
  intros payload a p3 c service diagnostics w Hargv Hp3 Hcode Heval Hversion
    Hshow dir evalPath interactive overlay r Hservice Hthrown run.
  destruct (executeEval_excludes _ _ Heval) as [Hentry Hstdin].
  subst run. destruct (phase4 H payload w) as [completion w'] eqn:Hrun.
  cbn [fst snd].
  subst overlay r. subst interactive.
  destruct (ToBoolean (executeRepl (phase4_entryPointInfo H (proc w) payload)))
    eqn:Hrepl;
    subst evalPath dir;
    destruct (ParsedArgv.version a) as [|[|n]] eqn:Hv; try lia;
    run_phase4_eval Hrun Heval Hentry Hstdin Hrepl Hp3 Hargv Hcode Hshow
      Hv Hservice Hthrown;
    destruct (enableEsmLoader p3);
    cbn in Hrun;
    repeat (step_in Hrun; cbn in Hrun);
    injection Hrun as <- <-;
    (split; [reflexivity|]);
    split; observe_trace; reflexivity.
Qed.

(** In stdin mode a returning [phase4] has printed nothing. *)
Lemma phase4_stdin_prints_nothing :
  forall (payload : BootstrapStateForChild PreloadedConfig)
         (w w' : World PreloadedConfig Service),
    executeStdin (phase4_entryPointInfo H (proc w) payload) = true ->
    phase4 H payload w = (Returned tt, w') ->
    events_where is_output w' = events_where is_output w
    /\ process.stdout_isTTY (proc w') = process.stdout_isTTY (proc w).
Proof.
  intros payload w w' Hstdin Hrun.
  destruct (executeStdin_alone H _ _ Hstdin) as (Hev & Hrepl & Hee).
  assert (Hcode : match initialArgv payload with
                  | Some a => ParsedArgv.code a
                  | None => None
                  end = None)
    by (eapply executeStdin_code_absent; exact Hstdin).
  unfold phase4 in Hrun.
  destruct (phase3Result payload) as [p3|] eqn:Hp3; [|discriminate].
  unfold bind at 1 in Hrun. cbn [gets] in Hrun.
  rewrite Hev, Hstdin, Hrepl, Hee in Hrun.
  unfold_phase4_in Hrun. rewrite Hp3, Hcode in Hrun.
  unfold_monad_in Hrun. cbn in Hrun.
  repeat (step_in Hrun; cbn in Hrun; try discriminate).
  all: injection Hrun as <-; split; [observe_trace; reflexivity|reflexivity].
Qed.

(** The stream of chunks ends in one evaluation of the accumulated text. *)
Lemma stdin_stream_run :
  forall chunks (w : World PreloadedConfig Service) l v m,
    stdin_listeners w = Some l ->
    stdinStuff l = Some v ->
    module v = Some m ->
    exists w2,
      trace w2 = trace w
      /\ proc w2 = proc w
      /\ stdin_stream H chunks w
         = evalAndExitOnTsError H (repl v) m
             (buffer l ++ String.concat "" chunks)%string
             (nullish_or
                (option_map ParsedArgv.print
                            (initialArgv (listener_payload l)))
                false)
             for_stdin w2.
Proof.
  induction chunks as [|chunk rest IH]; intros w l v m Hl Hv Hm.
  - exists w. split; [reflexivity|]. split; [reflexivity|].
    cbn [stdin_stream]. unfold stdin_end, bind at 1. cbn [gets].
    rewrite Hl, Hv, Hm. cbn [String.concat].
    replace (buffer l ++ "")%string with (buffer l); [reflexivity|].
    clear. induction (buffer l) as [|ch b IHb]; cbn; [reflexivity|].
    now rewrite <- IHb.
  - cbn [stdin_stream]. unfold bind at 1, stdin_data at 1, modify.
    rewrite Hl.
    match goal with
    | |- context [stdin_stream H rest ?w1] =>
        destruct (IH w1 _ v m eq_refl Hv Hm) as (w2 & Htrace & Hproc & Hrun)
    end.
    exists w2. split; [exact Htrace|]. split; [exact Hproc|].
    rewrite Hrun. cbn [buffer listener_payload].
    now rewrite concat_chunks_cons, append_assoc_chunks.
Qed.

(** X18. In stdin mode, once [phase4] has returned and standard input has
    delivered its chunks and ended: when the text evaluates to a value, the
    value is printed if the print flag was given (a state without parsed
    arguments counts as no flag) and nothing else is printed; when it fails
    with a [TSError], the error is reported and the process ends with status
    1. *)
Theorem stdin_result_is_printed :
  forall (payload : BootstrapStateForChild PreloadedConfig)
         (w w' : World PreloadedConfig Service) (chunks : list string),
    executeStdin (phase4_entryPointInfo H (proc w) payload) = true ->
    phase4 H payload w = (Returned tt, w') ->
    let text := String.concat "" chunks in
    let isPrinted :=
      nullish_or (option_map ParsedArgv.print (initialArgv payload)) false in
    let finished := stdin_stream H chunks w' in
    exists r,
      evaluated (trace (snd finished)) = evaluated (trace w) ++ [(r, text)]
      /\ (forall result,
             evalCode H r text = Returned result ->
             fst finished = Returned tt
             /\ events_where is_output (snd finished)
                = events_where is_output w
                  ++ (if isPrinted
                      then [console_log
                              match result with
                              | ResultString t => t
                              | ResultOther _ =>
                                  inspect H result
                                    (process.stdout_isTTY (proc w))
                              end]
                      else []))
      /\ (forall diagnostics,
             evalCode H r text = Threw (TSError diagnostics) ->
             fst finished = Exited 1
             /\ events_where is_output (snd finished)
                = events_where is_output w
                  ++ [console_error_thrown (TSError diagnostics)]).
Proof.
  intros payload w w' chunks Hstdin Hrun text isPrinted finished.
  destruct (phase4_listens_on_stdin H _ _ _ Hstdin Hrun)
    as (v & m & Hl & Hm & Hquiet).
  destruct (phase4_stdin_prints_nothing _ _ _ Hstdin Hrun)
    as [Hsilent Htty].
  exists (repl v). split.
  - subst finished.
    erewrite stdin_stream_evaluated; [|exact Hl|reflexivity|exact Hm].
    cbn [buffer]. now rewrite Hquiet.
  - destruct (stdin_stream_run chunks w' _ v m Hl eq_refl Hm)
      as (w2 & Htrace & Hproc & Hstream).
    cbn [buffer listener_payload append] in Hstream. fold text in Hstream.
    fold isPrinted in Hstream. subst finished. rewrite Hstream.
    unfold events_where in *. rewrite <- Hsilent, <- Htty, <- Hproc.
    rewrite <- Htrace.
    split.
    + intros result Hresult.
      unfold evalAndExitOnTsError, try_catch, bind, when, emit, modify,
        gets, call, ret, throw, process_exit.
      rewrite Hresult. destruct isPrinted;
        cbn [fst snd trace with_trace proc];
        rewrite ?filter_app; cbn; rewrite ?app_nil_r;
        split; reflexivity.
    + intros diagnostics Hthrown.
      unfold evalAndExitOnTsError, try_catch, bind, when, emit, modify,
        gets, call, ret, throw, process_exit.
      rewrite Hthrown.
      cbn [fst snd trace with_trace proc instanceof_TSError];
        rewrite ?filter_app; cbn; rewrite ?app_nil_r, <- ?app_assoc;
        split; reflexivity.
Qed.

End DispatcherModes.

(** * The further properties on concrete command lines *)

Lemma entry_modes_one_or_two_witness :
  let info :=
    getEntryPointInfo (Demo.host None) (Demo.process_of None) "/home/user"
      (Some "1+1") (Some true) [] in
  count_true [executeEval info; executeEntrypoint info;
              ToBoolean (executeRepl info); executeStdin info] = 2
  /\ executeEval info = true
  /\ ToBoolean (executeRepl info) = true.
Proof.
  destruct (entry_modes_one_or_two (Demo.host None) (Demo.process_of None)
              "/home/user" (Some "1+1") (Some true) [])
    as (_ & Htwo & Hboth).
  pose proof (proj2 Htwo (conj eq_refl (conj eq_refl eq_refl))) as Hcount.
  split; [exact Hcount|exact (Hboth Hcount)].
Defined.

Lemma entry_point_mode_stands_alone_witness :
  let info :=
    getEntryPointInfo (Demo.host None) (Demo.process_of None) "/home/user"
      None (Some false) ["a.ts"; "x"] in
  entryPointPath info <> None
  /\ executeEval info = false
  /\ executeRepl info = JsBool false
  /\ executeStdin info = false.
Proof.
  destruct (entry_point_mode_stands_alone (Demo.host None)
              (Demo.process_of None) "/home/user" None (Some false)
              ["a.ts"; "x"])
    as (Hpath & Halone).
  split; [exact (proj2 Hpath eq_refl)|exact (Halone eq_refl)].
Defined.

Lemma phase2_returns_or_exits_cleanly_witness :
  exists r,
    phase2 (Demo.host None) (Demo.start Demo.run_script)
      (Demo.world_of None)
    = (Returned r, Demo.world_of None).
Proof.
  destruct (phase2_returns_or_exits_cleanly (Demo.host None)
              (Demo.start Demo.run_script) (Demo.world_of None))
    as (Hreturns & _).
  apply (proj2 Hreturns). split; [reflexivity|discriminate].
Defined.

Lemma createBootstrapStateForChildProcess_idempotent_witness :
  createBootstrapStateForChildProcess
    (Demo.resolved Demo.run_script "/home/user" None false)
  = Returned Demo.forked_script
  /\ createBootstrapStateForChildProcess Demo.forked_script
     = Returned Demo.forked_script.
Proof.
  split; [reflexivity|].
  apply (createBootstrapStateForChildProcess_idempotent
           (Demo.resolved Demo.run_script "/home/user" None false)
           Demo.forked_script).
  reflexivity.
Defined.

Lemma getProjectSearchDir_restores_extensions_witness :
  require_extensions
    (snd (getProjectSearchDir (Demo.host None) (Some "/home/user")
            (Some true) None (Some "/home/user/a.ts") (Demo.world_of None)))
  = [".js"; ".json"; ".node"].
Proof.
  apply (getProjectSearchDir_restores_extensions (Demo.host None)
           (Some "/home/user") (Some true) None (Some "/home/user/a.ts")
           (Demo.world_of None) _ (Returned (Some "/home/user"))).
  - reflexivity.
  - discriminate.
Defined.

Lemma getProjectSearchDir_cwd_mode_witness :
  getProjectSearchDir (Demo.host None) (Some "/home/user") None (Some true)
    (Some "/home/user/a.ts") (Demo.world_of None)
  = (Returned (Some "/home/user"), Demo.world_of None).
Proof.
  apply (getProjectSearchDir_cwd_mode (Demo.host None)).
  - reflexivity.
  - left. reflexivity.
Defined.

Lemma getProjectSearchDir_script_mode_witness :
  let run :=
    getProjectSearchDir (Demo.host None) (Some "/srv/app") None None
      (Some "/home/user/a.ts") (Demo.world_of None) in
  fst run = Returned (Some "/home/user")
  /\ guaranteedNonexistentDirectorySuffix (snd run) = 1.
Proof.
  destruct (getProjectSearchDir_script_mode (Demo.host None)
              (Some "/srv/app") None None "/home/user/a.ts"
              (Demo.world_of None))
    as (extensions & _ & _ & Hfst & _ & Hsuffix).
  - discriminate.
  - discriminate.
  - split; [|exact Hsuffix]. rewrite Hfst. reflexivity.
Defined.

Lemma phase3_options_handed_over_witness :
  In (call_findAndReadConfig Demo.script_options)
    (trace (snd (phase3 (Demo.host None)
                   (Demo.initial Demo.run_script "/home/user")
                   (Demo.world_of None))))
  /\ RawOptions.transpileOnly Demo.script_options <> Some false
  /\ RawOptions.experimentalReplAwait Demo.script_options <> Some true.
Proof.
  assert (Hhanded :
            In (call_findAndReadConfig Demo.script_options)
              (trace (snd (phase3 (Demo.host None)
                             (Demo.initial Demo.run_script "/home/user")
                             (Demo.world_of None))))).
  { right. left. reflexivity. }
  split; [exact Hhanded|].
  destruct (phase3_options_handed_over (Demo.host None)
              (Demo.initial Demo.run_script "/home/user")
              (Demo.world_of None) Demo.script_options Hhanded
              (fun absent => absent))
    as (a & resolutionCwd & _ & _ & _ & _ & _ & Htranspile & _ & Hawait & _).
  split; [exact Htranspile|exact Hawait].
Defined.

Lemma bootstrap_in_process_witness :
  bootstrap (Demo.host None) (Demo.start Demo.run_script)
    (Demo.world_of None)
  = phase4 (Demo.host None)
      (Demo.resolved Demo.run_script "/home/user" None false)
      (snd (phase3 (Demo.host None)
              (Demo.initial Demo.run_script "/home/user")
              (Demo.world_of None)))
  /\ config_lookups
       (trace (snd (bootstrap (Demo.host None) (Demo.start Demo.run_script)
                      (Demo.world_of None))))
     = 1.
Proof.
  destruct (bootstrap_in_process (Demo.host None)
              (Demo.start Demo.run_script) (Demo.world_of None)
              (snd (phase3 (Demo.host None)
                      (Demo.initial Demo.run_script "/home/user")
                      (Demo.world_of None)))
              {| preloadedConfig := None; enableEsmLoader := false |})
    as (Hsame & Hlookups & _).
  - reflexivity.
  - discriminate.
  - reflexivity.
  - reflexivity.
  - reflexivity.
  - split; [exact Hsame|exact Hlookups].
Defined.

Lemma phase3_searches_from_resolution_directory_witness :
  exists options,
    RawOptions.projectSearchDir options = Some "/home/user"
    /\ RawOptions.cwd options = "/home/user"
    /\ phase3 (Demo.host (Some true)) (Demo.initial Demo.piped "/home/user")
         (Demo.world_of None)
       = (Returned {| preloadedConfig := Some true;
                      enableEsmLoader := true |},
          with_trace [call_findAndReadConfig options] (Demo.world_of None)).
Proof.
  destruct (phase3_searches_from_resolution_directory (Demo.host (Some true))
              (Demo.initial Demo.piped "/home/user") Demo.piped "/home/user"
              (Demo.world_of None) eq_refl eq_refl eq_refl
              (or_intror eq_refl))
    as (options & Hdir & Hcwd & Hrun).
  exists options. split; [exact Hdir|]. split; [exact Hcwd|exact Hrun].
Defined.


Lemma phase4_in_forked_child_witness :
  let run :=
    phase4 (Demo.host None) Demo.forked_script (Demo.world_of None) in
  fst run = Returned tt
  /\ events_where is_output (snd run) = []
  /\ evaluated (trace (snd run)) = [].
Proof.
  destruct (phase4_in_forked_child (Demo.host None) Demo.forked_script
              {| preloadedConfig := None; enableEsmLoader := false |}
              (Demo.world_of None) eq_refl eq_refl)
    as (Hreturns & Houtput & Hevaluated & _).
  - intros overlay. exists "4.8.4". reflexivity.
  - split; [exact Hreturns|]. split; [exact Houtput|exact Hevaluated].
Defined.

Lemma phase4_shows_configuration_witness :
  let run :=
    phase4 (Demo.host None)
      (Demo.resolved Demo.show_config "/home/user" None false)
      (Demo.world_of None) in
  fst run = Exited 0
  /\ events_where is_output (snd run) = [console_log "{}"]
  /\ events_where is_execution (snd run) = []
  /\ proc (snd run) = Demo.process_of None.
Proof.
  destruct (phase4_shows_configuration (Demo.host None)
              (Demo.resolved Demo.show_config "/home/user" None false)
              Demo.show_config
              {| preloadedConfig := None; enableEsmLoader := false |}
              (Demo.world_of None) eq_refl eq_refl)
    as (service & Hexits & Houtput & Hexecution & Hproc).
  - cbn. lia.
  - reflexivity.
  - intros overlay. exists "4.8.4". reflexivity.
  - split; [exact Hexits|]. split; [exact Houtput|].
    split; [exact Hexecution|exact Hproc].
Defined.

Lemma phase4_evaluates_inline_code_witness :
  let run :=
    phase4 (Demo.host None)
      (Demo.resolved Demo.eval_then_repl "/home/user" None false)
      (Demo.world_of None) in
  fst run = Returned tt
  /\ printed (trace (snd run)) = ["2"].
Proof.
  destruct (phase4_evaluates_inline_code (Demo.host None)
              (Demo.resolved Demo.eval_then_repl "/home/user" None false)
              Demo.eval_then_repl
              {| preloadedConfig := None; enableEsmLoader := false |}
              "1+1" "4.8.4" (ResultOther 2) (Demo.world_of None)
              eq_refl eq_refl eq_refl eq_refl)
    as (Hreturns & Hprinted & _).
  - cbn. lia.
  - reflexivity.
  - reflexivity.
  - reflexivity.
  - split; [exact Hreturns|exact Hprinted].
Defined.

Lemma phase4_inline_code_TSError_witness :
  let run :=
    phase4 (Demo.host None)
      (Demo.resolved Demo.eval_type_error "/home/user" None false)
      (Demo.world_of None) in
  fst run = Exited 1
  /\ events_where is_output (snd run)
     = [console_error_thrown
          (TSError
             "TS2322: Type 'string' is not assignable to type 'number'.")].
Proof.
  destruct (phase4_inline_code_TSError (Demo.host None)
              (Demo.resolved Demo.eval_type_error "/home/user" None false)
              Demo.eval_type_error
              {| preloadedConfig := None; enableEsmLoader := false |}
              "const n: number = 'a'" "4.8.4"
              "TS2322: Type 'string' is not assignable to type 'number'."
              (Demo.world_of None) eq_refl eq_refl eq_refl eq_refl)
    as (Hexits & Houtput & _).
  - cbn. lia.
  - reflexivity.
  - reflexivity.
  - reflexivity.
  - split; [exact Hexits|exact Houtput].
Defined.

Lemma stdin_result_is_printed_witness :
  let listening :=
    snd (phase4 (Demo.host None)
           (Demo.resolved Demo.piped "/home/user" None false)
           (Demo.world_of None)) in
  let finished := stdin_stream (Demo.host None) ["1+"; "1"] listening in
  fst finished = Returned tt
  /\ events_where is_output (snd finished) = [console_log "2"].
Proof.
  destruct (stdin_result_is_printed (Demo.host None)
              (Demo.resolved Demo.piped "/home/user" None false)
              (Demo.world_of None)
              (snd (phase4 (Demo.host None)
                      (Demo.resolved Demo.piped "/home/user" None false)
                      (Demo.world_of None)))
              ["1+"; "1"] eq_refl eq_refl)
    as (r & _ & Hvalue & _).
  exact (Hvalue (ResultOther 2) eq_refl).
Defined.
